(** * reviewboard/scmtools/tarball.py

    A shallow embedding of the tarball SCM tool of Review Board
    ([TarballTool], the adapter, and [TarballClient], the client that owns
    the archive, its cache file and all IO), and the properties of it that
    the specification states.

    Python's effects are explicit: a method is a function from the state of
    the outside world (file system, remote servers, log) to the new state
    and either a value or a raised exception.  The module is Python 2 code
    (it takes [urlparse] first and formats byte strings with [%]); names,
    classes and messages of the interpreter are those of Python 2.7. *)

From Stdlib Require Import String Ascii List ZArith Bool Strings.Byte DecimalString.
From stdpp Require Import base option gmap strings list.

Local Open Scope string_scope.
Local Open Scope Z_scope.

(** ** Python strings *)

Module Str.

(** [s.startswith(p)] *)
Definition startswith (s p : string) : bool := String.prefix p s.

(** [os.path.basename(p)]: what follows the last slash of [p]; [cur] is
    what follows the last slash read so far. *)
Fixpoint basename_from (cur s : string) : string :=
  match s with
  | EmptyString => cur
  | String c r =>
      if Ascii.eqb c "/" then basename_from r r else basename_from cur r
  end.

Definition basename (p : string) : string := basename_from p p.

(** [os.path.join(a, b)] on a POSIX system: [b] when it is absolute,
    else [a] and [b] with a slash between them unless [a] is empty or
    ends with one (which is when nothing follows its last slash). *)
Definition join (a b : string) : string :=
  if startswith b "/" then b
  else if String.eqb a "" then b
  else if String.eqb (basename a) "" then a +:+ b
  else a +:+ "/" +:+ b.

(** [s.replace(old, '')]: every occurrence of [old] is dropped, scanning
    from the left; [skip] counts the characters of the occurrence being
    dropped that are still ahead. *)
Fixpoint remove_from (old : string) (skip : nat) (s : string) : string :=
  match s with
  | EmptyString => EmptyString
  | String c r =>
      match skip with
      | S k => remove_from old k r
      | O =>
          if String.prefix old s
          then remove_from old (Nat.pred (String.length old)) r
          else String c (remove_from old 0 r)
      end
  end.

Definition remove (s old : string) : string :=
  if String.eqb old "" then s else remove_from old 0 s.

(** ['/' in s] *)
Fixpoint has_slash (s : string) : bool :=
  match s with
  | EmptyString => false
  | String c r => Ascii.eqb c "/" || has_slash r
  end.

(** [old in s]: [old] starts at some position of [s]. *)
Fixpoint occurs (old s : string) : bool :=
  String.prefix old s ||
  match s with
  | EmptyString => false
  | String _ r => occurs old r
  end.

(** ['%d' % n] *)
Definition of_int (n : Z) : string := NilZero.string_of_int (Z.to_int n).

(** ['%s' % x] for an attribute that is a string or [None] *)
Definition of_opt (x : option string) : string := default "None" x.

(** Truth value of an attribute that is a string or [None] *)
Definition truthy (x : option string) : bool :=
  match x with
  | Some s => negb (String.eqb s "")
  | None => false
  end.

End Str.

(** ** Revisions *)

(** Modelled from the spec: the constant [PRE_CREATION] of
    [reviewboard.scmtools.core] is not part of this file.  A revision is
    "either a sentinel meaning file does not exist yet or an opaque
    pass-through string". *)
Inductive Revision : Type :=
| PRE_CREATION
| RevStr (s : string).

Definition Revision_eqb (a b : Revision) : bool :=
  match a, b with
  | PRE_CREATION, PRE_CREATION => true
  | RevStr s, RevStr t => String.eqb s t
  | _, _ => false
  end.

Definition bytes : Type := list byte.

(** ** Exceptions *)

(** The exception classes the module raises or catches.  The classes of
    Python 2 and of its [urllib2] and [tarfile] modules are the library's. *)
Inductive pyclass : Type :=
| cBaseException | cException | cStandardError
| cLookupError | cKeyError | cAttributeError | cNameError | cImportError
| cEnvironmentError | cIOError | cOSError | cURLError | cHTTPError
| cTarError | cReadError
| cSCMError | cFileNotFoundError | cInvalidRevisionFormatError
| cRepositoryNotFoundError.

Global Instance pyclass_eq_dec : EqDecision pyclass.
Proof. solve_decision. Defined.

(** The base class of a class.
    Modelled from the spec: the classes of [reviewboard.scmtools.errors]
    are not part of this file; the "generic SCM/transport error" is the
    base of the typed errors FileNotFound, InvalidRevisionFormat and
    RepositoryNotFound. *)
Definition base (c : pyclass) : option pyclass :=
  match c with
  | cBaseException => None
  | cException => Some cBaseException
  | cStandardError => Some cException
  | cLookupError => Some cStandardError
  | cKeyError => Some cLookupError
  | cAttributeError => Some cStandardError
  | cNameError => Some cStandardError
  | cImportError => Some cStandardError
  | cEnvironmentError => Some cStandardError
  | cIOError => Some cEnvironmentError
  | cOSError => Some cEnvironmentError
  | cURLError => Some cIOError
  | cHTTPError => Some cURLError
  | cTarError => Some cException
  | cReadError => Some cTarError
  | cSCMError => Some cException
  | cFileNotFoundError => Some cSCMError
  | cInvalidRevisionFormatError => Some cSCMError
  | cRepositoryNotFoundError => Some cSCMError
  end.

Fixpoint issubclass_upto (n : nat) (c d : pyclass) : bool :=
  bool_decide (c = d) ||
  match n, base c with
  | S k, Some b => issubclass_upto k b d
  | _, _ => false
  end.

(** [issubclass(c, d)]; no chain of bases is longer than eight. *)
Definition issubclass (c d : pyclass) : bool := issubclass_upto 8 c d.

(** A raised exception, with the arguments it was built from. *)
Inductive exn : Type :=
| KeyError (msg : string)
| AttributeError (msg : string)
| NameError (msg : string)
| ImportError
| IOError (filename : string)
| OSError (filename : string)
| ReadError (msg : string)
| URLError (reason : string)
| HTTPError (code : Z) (msg : string)
| SCMError (msg : string)
| FileNotFoundError (path : string) (revision : option Revision)
| InvalidRevisionFormatError (path : string) (revision : string)
| RepositoryNotFoundError.

Definition class_of (e : exn) : pyclass :=
  match e with
  | KeyError _ => cKeyError
  | AttributeError _ => cAttributeError
  | NameError _ => cNameError
  | ImportError => cImportError
  | IOError _ => cIOError
  | OSError _ => cOSError
  | ReadError _ => cReadError
  | URLError _ => cURLError
  | HTTPError _ _ => cHTTPError
  | SCMError _ => cSCMError
  | FileNotFoundError _ _ => cFileNotFoundError
  | InvalidRevisionFormatError _ _ => cInvalidRevisionFormatError
  | RepositoryNotFoundError => cRepositoryNotFoundError
  end.

(** [isinstance(e, c)] *)
Definition isinstance (e : exn) (c : pyclass) : bool :=
  issubclass (class_of e) c.

(** [e.code] of an [HTTPError] *)
Definition code_of (e : exn) : Z :=
  match e with
  | HTTPError code _ => code
  | _ => 0
  end.

(** ** The outside world *)

(** A [urllib2.Request]: the URL and the headers added to it. *)
Record Request : Type := URLRequest_
  { req_url : string;
    req_headers : list (string * string) }.

Definition URLRequest (url : string) : Request :=
  {| req_url := url; req_headers := [] |}.

Definition add_header (r : Request) (key val : string) : Request :=
  {| req_url := req_url r; req_headers := req_headers r ++ [(key, val)] |}.

(** What a server does with a request: a body, an HTTP error status, or no
    answer at all. *)
Inductive Response : Type :=
| Body (data : bytes)
| Status (code : Z) (msg : string)
| Unreachable (reason : string).

(** A request fails when the answer is not a body. *)
Definition is_failure (r : Response) : bool :=
  match r with
  | Body _ => false
  | Status _ _ | Unreachable _ => true
  end.

Inductive Level : Type := DEBUG | ERROR.

(** A member of an archive ([tarfile.TarInfo] with its content) and an open
    archive ([tarfile.TarFile]): its members in the order of the file. *)
Record TarInfo : Type :=
  { ti_name : string;
    ti_data : bytes }.

Definition TarFile : Type := list TarInfo.

Record World : Type :=
  { fs : gmap string bytes;          (* the regular files on disk *)
    remote : Request -> Response;    (* the servers *)
    exe_in_path : string -> bool;    (* the programs found in PATH *)
    log : list (Level * string);     (* what [logging] has recorded *)
    requests : list Request;         (* the requests sent by [urlopen] *)
    opened : list string }.          (* the paths opened as archives *)

Definition set_fs (f : gmap string bytes -> gmap string bytes) (w : World) : World :=
  {| fs := f (fs w); remote := remote w; exe_in_path := exe_in_path w;
     log := log w; requests := requests w; opened := opened w |}.

Definition add_log (l : Level) (msg : string) (w : World) : World :=
  {| fs := fs w; remote := remote w; exe_in_path := exe_in_path w;
     log := log w ++ [(l, msg)]; requests := requests w; opened := opened w |}.

Definition add_request (r : Request) (w : World) : World :=
  {| fs := fs w; remote := remote w; exe_in_path := exe_in_path w;
     log := log w; requests := requests w ++ [r]; opened := opened w |}.

Definition add_opened (p : string) (w : World) : World :=
  {| fs := fs w; remote := remote w; exe_in_path := exe_in_path w;
     log := log w; requests := requests w; opened := opened w ++ [p] |}.

(** ** Computations *)

Inductive result (A : Type) : Type :=
| Ok (a : A)
| Raise (e : exn).
Arguments Ok {A} a.
Arguments Raise {A} e.

Definition M (A : Type) : Type := World -> World * result A.

Definition ret {A : Type} (a : A) : M A := fun w => (w, Ok a).

Definition bind {A B : Type} (m : M A) (f : A -> M B) : M B :=
  fun w =>
    match m w with
    | (w', Ok a) => f a w'
    | (w', Raise e) => (w', Raise e)
    end.

Declare Scope py_scope.
Delimit Scope py_scope with py.
Bind Scope py_scope with M.
Notation "x <- m ;; k" := (bind m (fun x => k))
  (at level 100, m at next level, k at level 200, right associativity,
   only parsing) : py_scope.
Notation "m ;; k" := (bind m (fun _ => k))
  (at level 100, k at level 200, right associativity, only parsing) : py_scope.
Local Open Scope py_scope.

Definition raise {A : Type} (e : exn) : M A := fun w => (w, Raise e).

(** An [except] clause: the class it names and its body. *)
Definition clause (A : Type) : Type := pyclass * (exn -> M A).

Fixpoint handler {A : Type} (cs : list (clause A)) (e : exn) : option (M A) :=
  match cs with
  | [] => None
  | (c, h) :: cs' => if isinstance e c then Some (h e) else handler cs' e
  end.

(** [try: body except c1 as e: h1 except c2 as e: h2 ...]: the first clause
    whose class the exception is an instance of runs, in the state the body
    left; an exception no clause names goes on to the caller. *)
Definition try_except {A : Type} (body : M A) (cs : list (clause A)) : M A :=
  fun w =>
    match body w with
    | (w', Ok a) => (w', Ok a)
    | (w', Raise e) =>
        match handler cs e with
        | Some h => h w'
        | None => (w', Raise e)
        end
    end.

(** ** The names in scope *)

(** The global names of the module: what its [import] statements and its
    two [class] statements bind (lines 1-30, 33 and 116). *)
Definition module_globals : list string :=
  [ "unicode_literals"; "logging"; "os"; "re"; "platform"; "tarfile"; "six";
    "HTTPError"; "urlquote"; "URLRequest"; "urlopen"; "_"; "is_exe_in_path";
    "DiffParser"; "DiffParserError"; "File";
    "SCMClient"; "SCMTool"; "HEAD"; "PRE_CREATION";
    "FileNotFoundError"; "InvalidRevisionFormatError";
    "RepositoryNotFoundError"; "SCMError";
    "urlparse"; "uses_netloc"; "urllib_urlparse";
    "TarballTool"; "TarballClient" ].

(** The functions, classes and format constants that Python's [tarfile]
    module defines at its top level. *)
Definition tarfile_module : list string :=
  [ "stn"; "nts"; "nti"; "itn"; "uts"; "calc_chksums"; "copyfileobj";
    "filemode";
    "TarError"; "ExtractError"; "ReadError"; "CompressionError";
    "StreamError"; "HeaderError"; "EmptyHeaderError";
    "TruncatedHeaderError"; "EOFHeaderError"; "InvalidHeaderError";
    "SubsequentHeaderError"; "ExFileObject";
    "TarInfo"; "TarFile"; "TarIter"; "TarFileCompat";
    "is_tarfile"; "bltn_open"; "open";
    "USTAR_FORMAT"; "GNU_FORMAT"; "PAX_FORMAT"; "DEFAULT_FORMAT"; "ENCODING" ].

Definition bound (names : list string) (name : string) : bool :=
  existsb (String.eqb name) names.

(** Evaluating the global name [name], then going on with [k].  It is
    written out for [base64], the one name the methods use that no
    statement of the module binds. *)
Definition global {A : Type} (name : string) (k : M A) : M A :=
  if bound module_globals name then k
  else raise (NameError ("global name '" +:+ name +:+ "' is not defined")).

(** Evaluating [tarfile.name], then going on with [k]. *)
Definition tarfile_attr {A : Type} (name : string) (k : M A) : M A :=
  if bound tarfile_module name then k
  else raise (AttributeError
                ("'module' object has no attribute '" +:+ name +:+ "'")).

(** ** What the module takes from elsewhere *)

Class Externals : Type :=
  { (** the reader of [tarfile]: the members of a file's content, or
        nothing when the content is not an archive *)
    tarfile_parse : bytes -> option TarFile;
    (** [base64.b64encode] *)
    b64encode : string -> string;
    (** [str(e)] *)
    str_of_exn : exn -> string;
    (** [SCMTool.check_repository], the method of the base class *)
    SCMTool_check_repository :
      string -> option string -> option string -> option string -> M unit }.

(** ** Library calls *)

Definition logging_error (msg : string) : M unit :=
  fun w => (add_log ERROR msg w, Ok tt).

Definition logging_debug (msg : string) : M unit :=
  fun w => (add_log DEBUG msg w, Ok tt).

(** [is_exe_in_path(name)] of djblets *)
Definition is_exe_in_path (name : string) : M bool :=
  fun w => (w, Ok (exe_in_path w name)).

(** [os.path.exists(p)] *)
Definition os_path_exists (p : string) : M bool :=
  fun w => (w, Ok (bool_decide (is_Some (fs w !! p)))).

(** [os.remove(p)] *)
Definition os_remove (p : string) : M unit :=
  fun w =>
    match fs w !! p with
    | Some _ => (set_fs (delete p) w, Ok tt)
    | None => (w, Raise (OSError p))
    end.

(** [open(p, 'w')]: the file is created, or emptied when it exists. *)
Definition open_w (p : string) : M unit :=
  fun w => (set_fs (insert p []) w, Ok tt).

(** [f.write(data)] on the file opened at [p] *)
Definition file_write (p : string) (data : bytes) : M unit :=
  fun w => (set_fs (fun m => <[p := (default [] (m !! p) ++ data)%list]> m) w, Ok tt).

(** [urlopen(request).read()] *)
Definition urlopen_read (request : Request) : M bytes :=
  fun w =>
    let w' := add_request request w in
    match remote w request with
    | Body data => (w', Ok data)
    | Status code msg => (w', Raise (HTTPError code msg))
    | Unreachable reason => (w', Raise (URLError reason))
    end.

Section Library.
Context `{Externals}.

(** [tarfile.open(p, mode='r')] *)
Definition tarfile_open (p : string) : M TarFile :=
  fun w =>
    match fs w !! p with
    | None => (w, Raise (IOError p))
    | Some content =>
        match tarfile_parse content with
        | Some tf => (add_opened p w, Ok tf)
        | None =>
            (add_opened p w, Raise (ReadError "file could not be opened successfully"))
        end
    end.

End Library.

(** [TarFile.getmember(name)]: the last member stored under that name. *)
Definition getmember (tf : TarFile) (name : string) : M TarInfo :=
  match find (fun m => String.eqb name (ti_name m)) (rev tf) with
  | Some m => ret m
  | None => raise (KeyError ("filename '" +:+ name +:+ "' not found"))
  end.

(** Whether the archive has a member stored under [name]. *)
Definition has_member (tf : TarFile) (name : string) : bool :=
  existsb (fun m => String.eqb name (ti_name m)) tf.

(** [TarFile.extractfile(member)], read to its end *)
Definition extractfile (tf : TarFile) (member : TarInfo) : bytes :=
  ti_data member.

(** ** class TarballClient(SCMClient) *)

Module TarballClient.

Record t : Type :=
  { path : string;
    username : option string;
    password : option string;
    encoding : string;
    local_site_name : option string;
    tarball_local_path : string }.

Definition TARBALL_LOCAL_CACHE_DIR : string := "/tmp".

Definition _normalize_tarball_url (path : string) : string :=
  if Str.startswith path "file://" || Str.startswith path "http://"
  then path
  else "file://" +:+ path.

(** Modelled from the spec: [SCMClient.__init__] is not part of this file;
    the state of a client is its "source reference (normalized), optional
    credentials, a resolved local cache file path", so the base class
    keeps the path and the credentials it is given. *)
Definition __init__ (path : string) (username password : option string)
    (encoding : string) (local_site_name : option string) : M t :=
  let self_path := _normalize_tarball_url path in
  found <- is_exe_in_path "tar";;
  if negb found then raise ImportError
  else
    let tarball_filename := Str.basename self_path in
    ret {| path := self_path;
            username := username;
            password := password;
            encoding := encoding;
            local_site_name := local_site_name;
            tarball_local_path :=
              if Str.startswith self_path "file://"
              then Str.remove self_path "file://"
              else Str.join TARBALL_LOCAL_CACHE_DIR tarball_filename |}.

Section Methods.
Context `{Externals}.

Definition _is_valid_tarfile (self : t) : M bool :=
  returned <- try_except
    (tarfile_attr "open" (tarfile_open (tarball_local_path self));;
     ret None)
    [ (cBaseException, fun _ =>
         logging_debug ("Tarball: Not a valid archive "
                          +:+ tarball_local_path self);;
         os_remove (tarball_local_path self);;
         ret (Some false)) ];;
  match returned with
  | Some r => ret r
  | None => ret true
  end.

Definition _cache_remote_tarball (self : t) : M unit :=
  let tarball_filename := Str.basename (tarball_local_path self) in
  cached <- os_path_exists (tarball_local_path self);;
  if cached then
    logging_debug ("TarballClient: " +:+ tarball_filename
                     +:+ " already cached, ignore it");;
    ret tt
  else
    try_except
      (let request := URLRequest (path self) in
       request <-
         (if Str.truthy (username self) then
            global "base64"
              (let auth_string :=
                 b64encode (Str.of_opt (username self) +:+ ":"
                              +:+ Str.of_opt (password self)) in
               ret (add_header request "Authorization"
                       ("Basic " +:+ auth_string)))
          else ret request);;
       open_w (tarball_local_path self);;
       tarball_data <- urlopen_read request;;
       file_write (tarball_local_path self) tarball_data;;
       ret tt)
      [ (cHTTPError, fun e =>
           if code_of e =? 404 then
             logging_error "404";;
             raise (FileNotFoundError (path self) None)
           else
             let msg := "HTTP error code " +:+ Str.of_int (code_of e)
                          +:+ " when fetching file from " +:+ path self
                          +:+ ": " +:+ str_of_exn e in
             logging_error msg;;
             raise (SCMError msg));
        (cException, fun e =>
           let msg := "Unexpected error fetching file from "
                        +:+ path self +:+ ": " +:+ str_of_exn e in
           logging_error msg;;
           raise (SCMError msg)) ].

(** Checks if this is a valid Tarball repository. *)
Definition is_valid_repository (self : t) : M bool :=
  returned <-
    (if Str.startswith (path self) "http://" then
       try_except
         (_cache_remote_tarball self;; ret None)
         [ (cException, fun e =>
              logging_error ("Tarball: Cannot cache remote tarball "
                               +:+ path self +:+ ": " +:+ str_of_exn e);;
              ret (Some false)) ]
     else ret None);;
  match returned with
  | Some r => ret r
  | None =>
      found <- os_path_exists (tarball_local_path self);;
      if negb found then
        logging_error ("Tarball: Cannot find local archive "
                         +:+ tarball_local_path self);;
        ret false
      else _is_valid_tarfile self
  end.

(** [self._open_tarfile()], line 157.  The class statement (lines 116-225)
    binds no [_open_tarfile], and no method assigns [self.tarfile], which
    line 159 reads: looking the method up on the client raises
    AttributeError, and nothing is opened. *)
Definition _open_tarfile (self : t) : M TarFile :=
  raise (AttributeError
           "'TarballClient' object has no attribute '_open_tarfile'").

(** The body of [get_file], lines 157-164, with what line 157 calls as a
    parameter: [opener self] is the call [self._open_tarfile()], and the
    archive it returns is what [self.tarfile] holds from then on. *)
Definition get_file_with (opener : t -> M TarFile) (self : t)
    (path_ : string) (revision : Revision) : M bytes :=
  self_tarfile <- opener self;;
  tarinfo <- try_except
    (getmember self_tarfile path_)
    [ (cKeyError, fun _ =>
         logging_error ("Tarball: Failed to find " +:+ path_
                          +:+ " from " +:+ path self);;
         raise (FileNotFoundError path_ (Some revision))) ];;
  tarfile_attr "extractfile" (ret (extractfile self_tarfile tarinfo)).

Definition get_file (self : t) (path_ : string) (revision : Revision)
  : M bytes :=
  get_file_with _open_tarfile self path_ revision.

Definition get_file_exists (self : t) (path_ : string)
    (revision : Revision) : M bool :=
  try_except
    (get_file self path_ revision;; ret true)
    [ (cException, fun _ => ret false) ].

End Methods.

End TarballClient.

(** ** The repository of the platform *)

(** Modelled from the spec: the repository object a tool is built for is
    not part of this file.  Its configuration is the "repository path
    (local path or [http://] URL), optional username/password credentials,
    optional encoding hint, optional named isolation scope (local site)";
    [get_credentials] gives the user name and the password it stores. *)
Record LocalSite : Type := { site_name : string }.

Record Credentials : Type :=
  { cred_username : option string;
    cred_password : option string }.

Record Repository : Type :=
  { repo_path : string;
    repo_local_site : option LocalSite;
    repo_credentials : Credentials;
    repo_encoding : string }.

Definition get_credentials (repository : Repository) : Credentials :=
  repo_credentials repository.

(** ** class TarballTool(SCMTool) *)

Module TarballTool.

Record t : Type := { client : TarballClient.t }.

(** The constructor; [SCMTool.__init__] keeps the repository, which no
    method of this module reads again. *)
Definition __init__ (repository : Repository) : M t :=
  let local_site_name := None in
  let local_site_name :=
    match repo_local_site repository with
    | Some local_site => Some (site_name local_site)
    | None => local_site_name
    end in
  let credentials := get_credentials repository in
  client <- TarballClient.__init__ (repo_path repository)
              (cred_username credentials) (cred_password credentials)
              (repo_encoding repository) local_site_name;;
  ret {| client := client |}.

Section Methods.
Context `{Externals}.

Definition get_file (self : t) (path : string) (revision : Revision)
  : M bytes :=
  if Revision_eqb revision PRE_CREATION then ret []
  else TarballClient.get_file (client self) path revision.

Definition file_exists (self : t) (path : string) (revision : Revision)
  : M bool :=
  if Revision_eqb revision PRE_CREATION then ret false
  else
    try_except
      (TarballClient.get_file_exists (client self) path revision)
      [ (cFileNotFoundError, fun _ => ret false);
        (cInvalidRevisionFormatError, fun _ => ret false) ].

Definition parse_diff_revision (self : t) (file_str revision_str : string)
    (moved copied : bool) : string * Revision :=
  let revision := RevStr revision_str in
  let revision :=
    if String.eqb file_str "/dev/null" then PRE_CREATION else revision in
  (file_str, revision).

Definition get_diffs_use_absolute_paths (self : t) : bool := true.

Definition get_fields (self : t) : list string :=
  ["diff_path"; "parent_diff_path"].

(** Performs checks on a repository to test its validity; the result is
    returned as an exception. *)
Definition check_repository (path : string)
    (username password local_site_name : option string) : M unit :=
  client <- TarballClient.__init__ path None None "" local_site_name;;
  SCMTool_check_repository (TarballClient.path client)
    username password local_site_name;;
  valid <- TarballClient.is_valid_repository client;;
  if negb valid then raise RepositoryNotFoundError else ret tt.

End Methods.

End TarballTool.

(** ** Names for the statements *)

Section Fetching.
Context `{Externals}.
Variable self : TarballClient.t.

(** The state in which the answer to the request of [self] arrives: the
    cache file has been created empty and the request has been sent. *)
Definition fetching (w : World) : World :=
  add_request (URLRequest (TarballClient.path self))
    (set_fs (insert (TarballClient.tarball_local_path self) []) w).

(** The message of line 202. *)
Definition http_error_msg (code : Z) (msg : string) : string :=
  "HTTP error code " +:+ Str.of_int code +:+ " when fetching file from "
    +:+ TarballClient.path self +:+ ": " +:+ str_of_exn (HTTPError code msg).

(** The message of line 207. *)
Definition unexpected_error_msg (e : exn) : string :=
  "Unexpected error fetching file from " +:+ TarballClient.path self
    +:+ ": " +:+ str_of_exn e.

(** The verdict on the file at the local path of [self], as
    [is_valid_repository] reaches it once the cache has been filled: false
    with an error logged when no file is there, true when the file opens as
    an archive, and false with the file removed when it does not. *)
Definition local_verdict (w : World) : World * result bool :=
  match fs w !! TarballClient.tarball_local_path self with
  | None =>
      (add_log ERROR ("Tarball: Cannot find local archive "
                        +:+ TarballClient.tarball_local_path self) w,
       Ok false)
  | Some content =>
      match tarfile_parse content with
      | Some _ => (add_opened (TarballClient.tarball_local_path self) w, Ok true)
      | None =>
          (set_fs (delete (TarballClient.tarball_local_path self))
             (add_log DEBUG ("Tarball: Not a valid archive "
                               +:+ TarballClient.tarball_local_path self)
                (add_opened (TarballClient.tarball_local_path self) w)),
           Ok false)
      end
  end.

End Fetching.

(** The requests sent between the states [w] and [w'] are [new], and none
    of them has a header. *)
Definition sent (w w' : World) (new : list Request) : Prop :=
  requests w' = (requests w ++ new)%list /\
  Forall (fun r => req_headers r = []) new.

(** ** Sample data *)

Module Sample.

Definition archive_content : bytes := list_byte_of_string "archive-1".

Definition members : TarFile :=
  [ {| ti_name := "dir/file.txt"; ti_data := list_byte_of_string "hello" |} ].

(** A reader that knows one archive. *)
Definition parse (content : bytes) : option TarFile :=
  if String.eqb (string_of_list_byte content) "archive-1"
  then Some members
  else None.

Definition externals : Externals :=
  {| tarfile_parse := parse;
     b64encode := fun s => s;
     str_of_exn := fun e =>
       match e with
       | HTTPError code msg => "HTTP Error " +:+ Str.of_int code +:+ ": " +:+ msg
       | URLError reason => "<urlopen error " +:+ reason +:+ ">"
       | _ => "error"
       end;
     SCMTool_check_repository := fun _ _ _ _ => ret tt |}.

(** One archive and one file that is no archive on disk; a server that
    answers 404 for [x.tar], 500 for [y.tar], and no server elsewhere. *)
Definition world : World :=
  {| fs := {[ "/srv/a.tar" := archive_content;
              "/tmp/bad.tar" := list_byte_of_string "junk" ]};
     remote := fun r =>
       if String.eqb (req_url r) "http://h/x.tar" then Status 404 "Not Found"
       else if String.eqb (req_url r) "http://h/y.tar"
            then Status 500 "Internal Server Error"
            else Unreachable "no route to host";
     exe_in_path := fun name => String.eqb name "tar";
     log := [];
     requests := [];
     opened := [] |}.

Definition client (url local : string) : TarballClient.t :=
  {| TarballClient.path := url;
     TarballClient.username := None;
     TarballClient.password := None;
     TarballClient.encoding := "";
     TarballClient.local_site_name := None;
     TarballClient.tarball_local_path := local |}.

Definition local_client : TarballClient.t :=
  client "file:///srv/a.tar" "/srv/a.tar".

(** The same world, with a server that answers [a.tar] with the archive
    and [junk.tar] with a body that is no archive. *)
Definition serving : World :=
  {| fs := fs world;
     remote := fun r =>
       if String.eqb (req_url r) "http://h/a.tar" then Body archive_content
       else if String.eqb (req_url r) "http://h/junk.tar"
            then Body (list_byte_of_string "junk")
            else remote world r;
     exe_in_path := exe_in_path world;
     log := [];
     requests := [];
     opened := [] |}.

(** The same world, on a machine without [tar]. *)
Definition without_tar : World :=
  {| fs := fs world;
     remote := remote world;
     exe_in_path := fun _ => false;
     log := [];
     requests := [];
     opened := [] |}.

Definition client_of (username password : option string) (url local : string)
  : TarballClient.t :=
  {| TarballClient.path := url;
     TarballClient.username := username;
     TarballClient.password := password;
     TarballClient.encoding := "";
     TarballClient.local_site_name := None;
     TarballClient.tarball_local_path := local |}.

End Sample.

(** ** Properties *)

(** *** Exceptions and names *)

Lemma isinstance_Exception (e : exn) : isinstance e cException = true.
Proof. destruct e; reflexivity. Qed.

Lemma isinstance_BaseException (e : exn) : isinstance e cBaseException = true.
Proof. destruct e; reflexivity. Qed.

(** No statement of the module binds [base64]. *)
Lemma global_base64 {A : Type} (k : M A) :
  global "base64" k
  = raise (NameError "global name 'base64' is not defined").
Proof. reflexivity. Qed.

(** The module [tarfile] has [open] and has no [extractfile]. *)
Lemma tarfile_attr_open {A : Type} (k : M A) : tarfile_attr "open" k = k.
Proof. reflexivity. Qed.

Lemma tarfile_attr_extractfile {A : Type} (k : M A) :
  tarfile_attr "extractfile" k
  = raise (AttributeError "'module' object has no attribute 'extractfile'").
Proof. reflexivity. Qed.

(** A [try] whose only clause names [Exception] never raises: it yields the
    value of the body, or what the clause returns. *)
Lemma try_except_Exception {A : Type} (body : M A) (h : exn -> M A) (w : World) :
  try_except body [(cException, h)] w =
  match body w with
  | (w', Ok a) => (w', Ok a)
  | (w', Raise e) => h e w'
  end.
Proof.
  unfold try_except. destruct (body w) as [w' [a|e]]; [reflexivity|].
  simpl. now rewrite isinstance_Exception.
Qed.

(** *** URL normalization *)

Lemma startswith_app (p s : string) : Str.startswith (p +:+ s) p = true.
Proof.
  unfold Str.startswith. induction p as [|c p IH]; simpl.
  - now destruct s.
  - destruct (ascii_dec c c); [exact IH | congruence].
Qed.

(** C7: normalization is a total function; a path that starts with
    [file://] or [http://] is returned unchanged, every other path [p] is
    returned as [file://] followed by [p], and normalizing twice is
    normalizing once. *)
Theorem normalize_tarball_url_idempotent (p : string) :
  (Str.startswith p "file://" = true \/ Str.startswith p "http://" = true ->
   TarballClient._normalize_tarball_url p = p) /\
  (Str.startswith p "file://" = false -> Str.startswith p "http://" = false ->
   TarballClient._normalize_tarball_url p = "file://" +:+ p) /\
  TarballClient._normalize_tarball_url (TarballClient._normalize_tarball_url p)
  = TarballClient._normalize_tarball_url p.
Proof.
  unfold TarballClient._normalize_tarball_url.
  split; [|split].
  - intros [-> | ->]; [reflexivity | now rewrite orb_true_r].
  - now intros -> ->.
  - destruct (Str.startswith p "file://" || Str.startswith p "http://") eqn:E.
    + now rewrite E.
    + now rewrite (startswith_app "file://" p).
Qed.

Lemma normalize_tarball_url_idempotent_witness :
  TarballClient._normalize_tarball_url "http://h/a.tar" = "http://h/a.tar" /\
  TarballClient._normalize_tarball_url "/a/b" = "file:///a/b".
Proof.
  split.
  - apply (proj1 (normalize_tarball_url_idempotent "http://h/a.tar")).
    right; reflexivity.
  - apply (proj1 (proj2 (normalize_tarball_url_idempotent "/a/b")));
      reflexivity.
Defined.

(** *** The adapter *)

(** C8: [parse_diff_revision] returns the file name it was given, with the
    pre-creation sentinel when the file name is [/dev/null] and with the
    revision string it was given otherwise. *)
Theorem parse_diff_revision_dev_null (self : TarballTool.t)
    (file_str revision_str : string) (moved copied : bool) :
  (file_str = "/dev/null" ->
   TarballTool.parse_diff_revision self file_str revision_str moved copied
   = (file_str, PRE_CREATION)) /\
  (file_str <> "/dev/null" ->
   TarballTool.parse_diff_revision self file_str revision_str moved copied
   = (file_str, RevStr revision_str)).
Proof.
  unfold TarballTool.parse_diff_revision. split; intros Hf.
  - subst file_str. reflexivity.
  - apply String.eqb_neq in Hf. now rewrite Hf.
Qed.

Lemma parse_diff_revision_dev_null_witness :
  TarballTool.parse_diff_revision
    {| TarballTool.client := Sample.local_client |} "/dev/null" "5" false false
  = ("/dev/null", PRE_CREATION) /\
  TarballTool.parse_diff_revision
    {| TarballTool.client := Sample.local_client |} "foo.txt" "5" false false
  = ("foo.txt", RevStr "5").
Proof.
  split.
  - apply (proj1 (parse_diff_revision_dev_null _ "/dev/null" "5" false false)).
    reflexivity.
  - apply (proj2 (parse_diff_revision_dev_null _ "foo.txt" "5" false false)).
    intros E; discriminate E.
Defined.

(** C6: with the pre-creation sentinel as revision, [get_file] returns the
    empty content and [file_exists] returns false, whatever the path, the
    client and the files on disk; the world is left as it was, so no
    archive has been opened. *)
Theorem pre_creation_short_circuit `{Externals} (self : TarballTool.t)
    (path : string) (w : World) :
  TarballTool.get_file self path PRE_CREATION w = (w, Ok []) /\
  TarballTool.file_exists self path PRE_CREATION w = (w, Ok false).
Proof. split; reflexivity. Qed.

(** *** The client: reading a member *)


Lemma getmember_found (tf : TarFile) (name : string) (w : World) :
  has_member tf name = true ->
  exists m, getmember tf name w = (w, Ok m) /\ In m tf /\ ti_name m = name.
Proof.
  unfold has_member, getmember. intros Hm.
  apply existsb_exists in Hm as (x & Hin & Hx).
  destruct (find _ (rev tf)) as [m|] eqn:E.
  - exists m. apply find_some in E as [Hin' Hn].
    apply in_rev in Hin'. apply String.eqb_eq in Hn. now repeat split.
  - apply in_rev in Hin. now rewrite (find_none _ _ E x Hin) in Hx.
Qed.

Lemma getmember_missing (tf : TarFile) (name : string) (w : World) :
  has_member tf name = false ->
  getmember tf name w
  = (w, Raise (KeyError ("filename '" +:+ name +:+ "' not found"))).
Proof.
  unfold has_member, getmember. intros Hm.
  destruct (find _ (rev tf)) as [m|] eqn:E; [|reflexivity].
  apply find_some in E as [Hin Hn]. apply in_rev in Hin.
  assert (existsb (fun m => String.eqb name (ti_name m)) tf = true) as Ht
    by (apply existsb_exists; eauto).
  congruence.
Qed.

(** [get_file] as the class is: line 157 raises, whatever the archive. *)
Lemma get_file_no_opener (self : TarballClient.t) (path : string)
    (revision : Revision) (w : World) :
  TarballClient.get_file self path revision w
  = (w, Raise (AttributeError
                 "'TarballClient' object has no attribute '_open_tarfile'")).
Proof. reflexivity. Qed.

(** Lines 158-164 once [opener] has returned the archive [tf]. *)
Lemma get_file_with_member (opener : TarballClient.t -> M TarFile)
    (self : TarballClient.t) (path : string) (revision : Revision)
    (w w0 : World) (tf : TarFile) :
  opener self w = (w0, Ok tf) ->
  has_member tf path = true ->
  TarballClient.get_file_with opener self path revision w
  = (w0, Raise (AttributeError
                  "'module' object has no attribute 'extractfile'")).
Proof.
  intros Ho Hm. unfold TarballClient.get_file_with.
  unfold bind at 1. rewrite Ho. unfold bind, try_except.
  destruct (getmember_found tf path w0 Hm) as (m & -> & _).
  reflexivity.
Qed.

Lemma get_file_with_missing (opener : TarballClient.t -> M TarFile)
    (self : TarballClient.t) (path : string) (revision : Revision)
    (w w0 : World) (tf : TarFile) :
  opener self w = (w0, Ok tf) ->
  has_member tf path = false ->
  TarballClient.get_file_with opener self path revision w
  = (add_log ERROR
       ("Tarball: Failed to find " +:+ path +:+ " from "
          +:+ TarballClient.path self) w0,
     Raise (FileNotFoundError path (Some revision))).
Proof.
  intros Ho Hm. unfold TarballClient.get_file_with.
  unfold bind at 1. rewrite Ho. unfold bind at 1. unfold try_except.
  rewrite (getmember_missing tf path _ Hm).
  reflexivity.
Qed.

(** C1: [get_file] does not return the content of a member.  As the class
    is, line 157 raises AttributeError before any archive is opened.  And
    whatever line 157 is made to call, once it has returned an archive in
    which the member is, line 164 raises AttributeError: it looks
    [extractfile] up on the module [tarfile]. *)
Theorem get_file_member_raises_AttributeError (self : TarballClient.t)
    (path : string) (revision : Revision) (w : World) :
  TarballClient.get_file self path revision w
  = (w, Raise (AttributeError
                 "'TarballClient' object has no attribute '_open_tarfile'")) /\
  forall (opener : TarballClient.t -> M TarFile) (w0 : World) (tf : TarFile),
    opener self w = (w0, Ok tf) ->
    has_member tf path = true ->
    TarballClient.get_file_with opener self path revision w
    = (w0, Raise (AttributeError
                    "'module' object has no attribute 'extractfile'")).
Proof.
  split; [apply get_file_no_opener|].
  intros opener w0 tf Ho Hm.
  apply (get_file_with_member opener self path revision w w0 tf Ho Hm).
Qed.

Lemma get_file_member_raises_AttributeError_witness :
  TarballClient.get_file Sample.local_client
    "dir/file.txt" (RevStr "1") Sample.world
  = (Sample.world,
     Raise (AttributeError
              "'TarballClient' object has no attribute '_open_tarfile'")) /\
  TarballClient.get_file_with
    (fun self => tarfile_open (H := Sample.externals)
                   (TarballClient.tarball_local_path self))
    Sample.local_client "dir/file.txt" (RevStr "1") Sample.world
  = (add_opened "/srv/a.tar" Sample.world,
     Raise (AttributeError "'module' object has no attribute 'extractfile'")).
Proof.
  destruct (get_file_member_raises_AttributeError Sample.local_client
              "dir/file.txt" (RevStr "1") Sample.world) as [Hclass Hbody].
  split; [exact Hclass|].
  apply (Hbody _ (add_opened "/srv/a.tar" Sample.world) Sample.members);
    reflexivity.
Defined.

(** C2: where the archive has no member under the requested path,
    [get_file] as the class is raises AttributeError at line 157 and logs
    nothing: no FileNotFoundError is raised.  Whatever line 157 is made to
    call, once it has returned an archive without the member, lines 158-163
    do what the claim says: the failure is logged and FileNotFoundError is
    raised with that path and that revision. *)
Theorem get_file_missing_member (self : TarballClient.t) (path : string)
    (revision : Revision) (w : World) :
  TarballClient.get_file self path revision w
  = (w, Raise (AttributeError
                 "'TarballClient' object has no attribute '_open_tarfile'")) /\
  forall (opener : TarballClient.t -> M TarFile) (w0 : World) (tf : TarFile),
    opener self w = (w0, Ok tf) ->
    has_member tf path = false ->
    TarballClient.get_file_with opener self path revision w
    = (add_log ERROR
         ("Tarball: Failed to find " +:+ path +:+ " from "
            +:+ TarballClient.path self) w0,
       Raise (FileNotFoundError path (Some revision))).
Proof.
  split; [apply get_file_no_opener|].
  intros opener w0 tf Ho Hm.
  apply (get_file_with_missing opener self path revision w w0 tf Ho Hm).
Qed.

Lemma get_file_missing_member_witness :
  TarballClient.get_file Sample.local_client
    "missing.txt" (RevStr "1") Sample.world
  = (Sample.world,
     Raise (AttributeError
              "'TarballClient' object has no attribute '_open_tarfile'")) /\
  TarballClient.get_file_with
    (fun self => tarfile_open (H := Sample.externals)
                   (TarballClient.tarball_local_path self))
    Sample.local_client "missing.txt" (RevStr "1") Sample.world
  = (add_log ERROR
       "Tarball: Failed to find missing.txt from file:///srv/a.tar"
       (add_opened "/srv/a.tar" Sample.world),
     Raise (FileNotFoundError "missing.txt" (Some (RevStr "1")))).
Proof.
  destruct (get_file_missing_member Sample.local_client
              "missing.txt" (RevStr "1") Sample.world) as [Hclass Hbody].
  split; [exact Hclass|].
  apply (Hbody _ (add_opened "/srv/a.tar" Sample.world) Sample.members);
    reflexivity.
Defined.

(** *** The client: filling the cache *)

Lemma os_path_exists_None (p : string) (w : World) :
  fs w !! p = None -> os_path_exists p w = (w, Ok false).
Proof.
  intros E. unfold os_path_exists. rewrite E.
  rewrite bool_decide_eq_false_2; [reflexivity|]. now intros [x Hx].
Qed.

Lemma os_path_exists_Some (p : string) (w : World) (content : bytes) :
  fs w !! p = Some content -> os_path_exists p w = (w, Ok true).
Proof.
  intros E. unfold os_path_exists. rewrite E.
  rewrite bool_decide_eq_true_2; [reflexivity|]. now exists content.
Qed.

Section CacheFill.
Context `{Externals}.
Variable self : TarballClient.t.

Local Abbreviation local := (TarballClient.tarball_local_path self).
Local Abbreviation url := (TarballClient.path self).

Lemma cache_fill_cached (w : World) (content : bytes) :
  fs w !! local = Some content ->
  TarballClient._cache_remote_tarball self w
  = (add_log DEBUG ("TarballClient: " +:+ Str.basename local
                      +:+ " already cached, ignore it") w, Ok tt).
Proof.
  intros E. unfold TarballClient._cache_remote_tarball, bind.
  now rewrite (os_path_exists_Some _ _ _ E).
Qed.

(** With a user name the header is never built: [base64] is not a name of
    the module. *)
Lemma cache_fill_with_username (w : World) :
  fs w !! local = None ->
  Str.truthy (TarballClient.username self) = true ->
  TarballClient._cache_remote_tarball self w
  = (let msg := unexpected_error_msg self
                  (NameError "global name 'base64' is not defined") in
     (add_log ERROR msg w, Raise (SCMError msg))).
Proof.
  intros E Hu. unfold TarballClient._cache_remote_tarball, bind.
  rewrite (os_path_exists_None _ _ E).
  unfold try_except. now rewrite Hu.
Qed.

Lemma cache_fill_without_username (w : World) :
  fs w !! local = None ->
  Str.truthy (TarballClient.username self) = false ->
  TarballClient._cache_remote_tarball self w
  = match remote w (URLRequest url) with
    | Body data =>
        (set_fs (insert local data) (fetching self w), Ok tt)
    | Status code msg =>
        if code =? 404
        then (add_log ERROR "404" (fetching self w),
              Raise (FileNotFoundError url None))
        else (add_log ERROR (http_error_msg self code msg) (fetching self w),
              Raise (SCMError (http_error_msg self code msg)))
    | Unreachable reason =>
        (add_log ERROR (unexpected_error_msg self (URLError reason)) (fetching self w),
         Raise (SCMError (unexpected_error_msg self (URLError reason))))
    end.
Proof.
  intros E Hu. unfold TarballClient._cache_remote_tarball, bind.
  rewrite (os_path_exists_None _ _ E).
  unfold try_except. rewrite Hu.
  unfold ret at 1, open_w, urlopen_read. cbn [remote set_fs].
  destruct (remote w (URLRequest (TarballClient.path self)))
    as [data | code msg | reason]; cbn.
  - unfold file_write, set_fs, fetching, add_request. cbn. f_equal.
    f_equal. now rewrite lookup_insert_eq.
  - now destruct (code =? 404).
  - reflexivity.
Qed.

(** A request is sent only by a client without a user name, and it is the
    request for the client's URL, without headers. *)
Lemma cache_fill_request (w : World) (req : Request) :
  fs w !! local = None ->
  requests (TarballClient._cache_remote_tarball self w).1
  = (requests w ++ [req])%list ->
  Str.truthy (TarballClient.username self) = false /\ req = URLRequest url.
Proof.
  intros E Hreq.
  destruct (Str.truthy (TarballClient.username self)) eqn:Hu.
  - rewrite (cache_fill_with_username w E Hu) in Hreq. cbn in Hreq.
    apply (f_equal length) in Hreq. rewrite length_app in Hreq.
    cbn in Hreq. lia.
  - split; [reflexivity|].
    rewrite (cache_fill_without_username w E Hu) in Hreq.
    assert ((requests w ++ [URLRequest url])%list = (requests w ++ [req])%list) as Heq.
    { rewrite <- Hreq.
      destruct (remote w (URLRequest url)) as [data | code msg | reason];
        [reflexivity | now destruct (code =? 404) | reflexivity]. }
    apply app_inv_head in Heq. now injection Heq.
Qed.

(** C4: when the cache file is absent and the request is sent, an answer
    with status 404 makes [_cache_remote_tarball] raise FileNotFoundError
    with the URL of the client; any other error status, and a server that
    cannot be reached, make it raise SCMError with a message that names the
    URL and the error.  In each case an error has been logged when the
    exception is raised. *)
Theorem cache_remote_tarball_fetch_errors (w : World) (req : Request) :
  fs w !! local = None ->
  requests (TarballClient._cache_remote_tarball self w).1
  = (requests w ++ [req])%list ->
  (forall msg, remote w req = Status 404 msg ->
     TarballClient._cache_remote_tarball self w
     = (add_log ERROR "404" (fetching self w),
        Raise (FileNotFoundError url None))) /\
  (forall code msg, remote w req = Status code msg -> code <> 404 ->
     TarballClient._cache_remote_tarball self w
     = (add_log ERROR (http_error_msg self code msg) (fetching self w),
        Raise (SCMError (http_error_msg self code msg)))) /\
  (forall reason, remote w req = Unreachable reason ->
     TarballClient._cache_remote_tarball self w
     = (add_log ERROR (unexpected_error_msg self (URLError reason))
          (fetching self w),
        Raise (SCMError (unexpected_error_msg self (URLError reason))))).
Proof.
  intros E Hreq.
  destruct (cache_fill_request w req E Hreq) as [Hu ->].
  rewrite (cache_fill_without_username w E Hu).
  repeat split.
  - now intros msg ->.
  - intros code msg -> Hc. apply Z.eqb_neq in Hc. now rewrite Hc.
  - now intros reason ->.
Qed.

(** C9: when the cache file is absent and the request that is sent fails,
    [_cache_remote_tarball] raises with the cache file created and empty;
    called again in the state it left, it finds the file, returns, and
    sends no request. *)
Theorem failed_fetch_leaves_empty_cache_file (w : World) (req : Request) :
  fs w !! local = None ->
  requests (TarballClient._cache_remote_tarball self w).1
  = (requests w ++ [req])%list ->
  is_failure (remote w req) = true ->
  let w1 := (TarballClient._cache_remote_tarball self w).1 in
  (exists e, (TarballClient._cache_remote_tarball self w).2 = Raise e) /\
  fs w1 = <[local := []]> (fs w) /\
  exists w2, TarballClient._cache_remote_tarball self w1 = (w2, Ok tt) /\
             requests w2 = requests w1 /\ fs w2 = fs w1.
Proof.
  intros E Hreq Hfail.
  destruct (cache_fill_request w req E Hreq) as [Hu ->].
  rewrite (cache_fill_without_username w E Hu).
  assert (forall w1 : World, fs w1 = <[local := []]> (fs w) ->
            exists w2, TarballClient._cache_remote_tarball self w1 = (w2, Ok tt)
                       /\ requests w2 = requests w1 /\ fs w2 = fs w1) as Hagain.
  { intros w1 Hw1. eexists. split; [|split].
    - apply (cache_fill_cached w1 []). rewrite Hw1. apply lookup_insert_eq.
    - reflexivity.
    - reflexivity. }
  destruct (remote w (URLRequest url)) as [data | code msg | reason];
    [discriminate Hfail | destruct (code =? 404) | ];
    intros w1; subst w1;
    (split; [eexists; reflexivity
            | split; [reflexivity | apply Hagain; reflexivity]]).
Qed.

End CacheFill.

Lemma cache_remote_tarball_fetch_errors_witness :
  TarballClient._cache_remote_tarball (H := Sample.externals)
    (Sample.client "http://h/x.tar" "/tmp/x.tar") Sample.world
  = (add_log ERROR "404"
       (fetching (Sample.client "http://h/x.tar" "/tmp/x.tar") Sample.world),
     Raise (FileNotFoundError "http://h/x.tar" None)) /\
  (TarballClient._cache_remote_tarball (H := Sample.externals)
     (Sample.client "http://h/y.tar" "/tmp/y.tar") Sample.world).2
  = Raise (SCMError
             ("HTTP error code 500 when fetching file from http://h/y.tar: "
                +:+ "HTTP Error 500: Internal Server Error")) /\
  (TarballClient._cache_remote_tarball (H := Sample.externals)
     (Sample.client "http://h/z.tar" "/tmp/z.tar") Sample.world).2
  = Raise (SCMError
             ("Unexpected error fetching file from http://h/z.tar: "
                +:+ "<urlopen error no route to host>")).
Proof.
  split; [|split].
  - apply (proj1 (cache_remote_tarball_fetch_errors (H := Sample.externals)
                    (Sample.client "http://h/x.tar" "/tmp/x.tar") Sample.world
                    (URLRequest "http://h/x.tar") eq_refl eq_refl)
             "Not Found").
    reflexivity.
  - rewrite (proj1 (proj2 (cache_remote_tarball_fetch_errors
                             (H := Sample.externals)
                             (Sample.client "http://h/y.tar" "/tmp/y.tar")
                             Sample.world (URLRequest "http://h/y.tar")
                             eq_refl eq_refl))
               500 "Internal Server Error" eq_refl);
      [reflexivity | intros E; discriminate E].
  - rewrite (proj2 (proj2 (cache_remote_tarball_fetch_errors
                             (H := Sample.externals)
                             (Sample.client "http://h/z.tar" "/tmp/z.tar")
                             Sample.world (URLRequest "http://h/z.tar")
                             eq_refl eq_refl))
               "no route to host" eq_refl).
    reflexivity.
Defined.

Lemma failed_fetch_leaves_empty_cache_file_witness :
  let self := Sample.client "http://h/x.tar" "/tmp/x.tar" in
  let w1 := (TarballClient._cache_remote_tarball (H := Sample.externals)
               self Sample.world).1 in
  fs w1 !! "/tmp/x.tar" = Some [] /\
  exists w2,
    TarballClient._cache_remote_tarball (H := Sample.externals) self w1
    = (w2, Ok tt) /\ requests w2 = requests w1.
Proof.
  intros self w1.
  destruct (failed_fetch_leaves_empty_cache_file (H := Sample.externals)
              self Sample.world (URLRequest "http://h/x.tar")
              eq_refl eq_refl eq_refl) as (_ & Hfs & w2 & Hrun & Hreq & _).
  split.
  - fold w1 in Hfs. rewrite Hfs. apply lookup_insert_eq.
  - exists w2. split; [exact Hrun | exact Hreq].
Defined.

(** *** The client: validity *)

Section Validity.
Context `{Externals}.
Variable self : TarballClient.t.

Local Abbreviation local := (TarballClient.tarball_local_path self).

Lemma is_valid_tarfile_corrupt (w : World) (content : bytes) :
  fs w !! local = Some content ->
  tarfile_parse content = None ->
  TarballClient._is_valid_tarfile self w
  = (set_fs (delete local)
       (add_log DEBUG ("Tarball: Not a valid archive " +:+ local)
          (add_opened local w)),
     Ok false).
Proof.
  intros E Hparse.
  unfold TarballClient._is_valid_tarfile.
  rewrite tarfile_attr_open. unfold tarfile_open.
  unfold bind at 1. unfold try_except. unfold bind at 1.
  rewrite E, Hparse. cbn [handler]. rewrite isinstance_BaseException.
  unfold bind, logging_debug, os_remove. cbn [fs add_log add_opened].
  now rewrite E.
Qed.

(** C5: where a file is at the local path of the client and it is not an
    archive, [is_valid_repository] returns false and leaves a file system
    from which that file has been removed. *)
Theorem is_valid_repository_removes_corrupt_file (w : World) (content : bytes) :
  fs w !! local = Some content ->
  tarfile_parse content = None ->
  exists w', TarballClient.is_valid_repository self w = (w', Ok false) /\
             fs w' = delete local (fs w).
Proof.
  intros E Hparse. unfold TarballClient.is_valid_repository.
  destruct (Str.startswith (TarballClient.path self) "http://").
  - unfold bind at 1. rewrite try_except_Exception. unfold bind at 1.
    rewrite (cache_fill_cached self w content E). unfold ret at 1.
    set (w0 := add_log DEBUG _ w).
    assert (fs w0 !! local = Some content) as E0 by exact E.
    unfold bind at 1. rewrite (os_path_exists_Some _ _ _ E0). cbn [negb].
    rewrite (is_valid_tarfile_corrupt w0 content E0 Hparse).
    eexists. split; reflexivity.
  - unfold bind at 1. unfold ret at 1.
    unfold bind at 1. rewrite (os_path_exists_Some _ _ _ E). cbn [negb].
    rewrite (is_valid_tarfile_corrupt w content E Hparse).
    eexists. split; reflexivity.
Qed.

End Validity.

Lemma is_valid_repository_removes_corrupt_file_witness :
  exists w',
    TarballClient.is_valid_repository (H := Sample.externals)
      (Sample.client "http://h/bad.tar" "/tmp/bad.tar") Sample.world
    = (w', Ok false) /\
    fs w' !! "/tmp/bad.tar" = None.
Proof.
  destruct (is_valid_repository_removes_corrupt_file (H := Sample.externals)
              (Sample.client "http://h/bad.tar" "/tmp/bad.tar") Sample.world
              (list_byte_of_string "junk") eq_refl eq_refl)
    as (w' & Hrun & Hfs).
  exists w'. split; [exact Hrun|]. rewrite Hfs. apply lookup_delete_eq.
Defined.

(** *** Requests and credentials *)

Section Requests.
Context `{Externals}.
Variable self : TarballClient.t.

Local Abbreviation local := (TarballClient.tarball_local_path self).

Lemma sent_nothing (w w' : World) : requests w' = requests w -> exists new, sent w w' new.
Proof. intros E. exists []. split; [now rewrite app_nil_r | constructor]. Qed.

Lemma is_valid_tarfile_requests (w : World) :
  requests (TarballClient._is_valid_tarfile self w).1 = requests w.
Proof.
  unfold TarballClient._is_valid_tarfile.
  rewrite tarfile_attr_open. unfold tarfile_open.
  unfold bind at 1. unfold try_except. unfold bind at 1.
  destruct (fs w !! local) as [content|] eqn:E.
  - destruct (tarfile_parse content); [reflexivity|].
    cbn [handler]. rewrite isinstance_BaseException.
    unfold bind, logging_debug, os_remove. cbn [fs add_log add_opened].
    now rewrite E.
  - cbn [handler]. rewrite isinstance_BaseException.
    unfold bind, logging_debug, os_remove. cbn [fs add_log add_opened].
    now rewrite E.
Qed.

(** Whatever the client, no request that [_cache_remote_tarball] sends has
    a header. *)
Lemma cache_fill_requests (w : World) :
  exists new, sent w (TarballClient._cache_remote_tarball self w).1 new.
Proof.
  destruct (fs w !! local) as [content|] eqn:E.
  - rewrite (cache_fill_cached self w content E). now apply sent_nothing.
  - destruct (Str.truthy (TarballClient.username self)) eqn:Hu.
    + rewrite (cache_fill_with_username self w E Hu). now apply sent_nothing.
    + rewrite (cache_fill_without_username self w E Hu).
      exists [URLRequest (TarballClient.path self)].
      split; [|now repeat constructor].
      destruct (remote w _) as [data | code msg | reason];
        [reflexivity | now destruct (code =? 404) | reflexivity].
Qed.

Lemma is_valid_repository_requests (w : World) :
  exists new, sent w (TarballClient.is_valid_repository self w).1 new.
Proof.
  assert (forall w0 : World,
            requests (bind (os_path_exists local)
                        (fun found : bool =>
                           if negb found
                           then bind (logging_error
                                        ("Tarball: Cannot find local archive "
                                           +:+ local))
                                  (fun _ => ret false)
                           else TarballClient._is_valid_tarfile self) w0).1
            = requests w0) as Hrest.
  { intros w0. unfold bind at 1. unfold os_path_exists.
    destruct (bool_decide (is_Some (fs w0 !! local))); cbn [negb].
    - apply is_valid_tarfile_requests.
    - reflexivity. }
  unfold TarballClient.is_valid_repository.
  destruct (Str.startswith (TarballClient.path self) "http://").
  - unfold bind at 1. rewrite try_except_Exception. unfold bind at 1.
    destruct (cache_fill_requests w) as (new & Hreq & Hnew).
    destruct (TarballClient._cache_remote_tarball self w) as [w0 [[]|e]].
    + unfold ret at 1. exists new. split; [|exact Hnew].
      rewrite Hrest. exact Hreq.
    + exists new. split; [exact Hreq | exact Hnew].
  - unfold bind at 1. unfold ret at 1. apply sent_nothing, Hrest.
Qed.

End Requests.

(** C10: [check_repository] builds its client without the user name and the
    password it is given.  Where the method of the base class does not tell
    two pairs of credentials apart, [check_repository] does not either: the
    state it leaves and the exception it raises, or not, are the same.  The
    client it builds has no credentials, and no request that the validity
    check of that client sends has a header. *)
Theorem check_repository_ignores_credentials `{Externals}
    (path : string) (u1 p1 u2 p2 local_site_name : option string) (w : World) :
  ((forall p w0,
       SCMTool_check_repository p u1 p1 local_site_name w0
       = SCMTool_check_repository p u2 p2 local_site_name w0) ->
   TarballTool.check_repository path u1 p1 local_site_name w
   = TarballTool.check_repository path u2 p2 local_site_name w) /\
  (forall w0 client,
      TarballClient.__init__ path None None "" local_site_name w
      = (w0, Ok client) ->
      TarballClient.username client = None /\
      TarballClient.password client = None /\
      forall w1, exists new,
        sent w1 (TarballClient.is_valid_repository client w1).1 new).
Proof.
  split.
  - intros Hbase. unfold TarballTool.check_repository.
    unfold bind at 1. unfold bind at 3.
    destruct (TarballClient.__init__ path None None "" local_site_name w)
      as [w0 [client|e]]; [|reflexivity].
    unfold bind at 1. unfold bind at 3. now rewrite Hbase.
  - intros w0 client Hinit.
    unfold TarballClient.__init__, bind, is_exe_in_path in Hinit.
    destruct (exe_in_path w "tar"); cbn in Hinit; [|discriminate Hinit].
    injection Hinit as _ <-. cbn.
    split; [reflexivity | split; [reflexivity|]].
    intros w1. apply is_valid_repository_requests.
Qed.

Lemma check_repository_ignores_credentials_witness :
  TarballTool.check_repository (H := Sample.externals)
    "/srv/a.tar" (Some "alice") (Some "secret") None Sample.world
  = TarballTool.check_repository (H := Sample.externals)
      "/srv/a.tar" None None None Sample.world /\
  exists client,
    TarballClient.__init__ "/srv/a.tar" None None "" None Sample.world
    = (Sample.world, Ok client) /\
    TarballClient.username client = None.
Proof.
  pose proof (check_repository_ignores_credentials (H := Sample.externals)
                "/srv/a.tar" (Some "alice") (Some "secret") None None None
                Sample.world) as [Hsame Hclient].
  split.
  - apply Hsame. intros p w0. reflexivity.
  - exists Sample.local_client. split; [reflexivity|].
    apply (Hclient Sample.world Sample.local_client eq_refl).
Defined.

(** ** Further properties *)

(** *** Paths *)

Lemma basename_from_no_slash (s cur : string) :
  Str.has_slash s = true \/ Str.has_slash cur = false ->
  Str.has_slash (Str.basename_from cur s) = false.
Proof.
  revert cur. induction s as [|c r IH]; intros cur Hc; cbn.
  - destruct Hc as [Hc|Hc]; [discriminate Hc | exact Hc].
  - cbn in Hc. destruct (Ascii.eqb c "/") eqn:E.
    + apply IH. destruct (Str.has_slash r); auto.
    + apply IH. exact Hc.
Qed.

Lemma basename_no_slash (p : string) : Str.has_slash (Str.basename p) = false.
Proof.
  unfold Str.basename. apply basename_from_no_slash.
  destruct (Str.has_slash p); auto.
Qed.

Lemma join_tmp (b : string) :
  Str.has_slash b = false -> Str.join "/tmp" b = "/tmp/" +:+ b.
Proof.
  intros Hb. unfold Str.join, Str.startswith.
  destruct b as [|c r]; [reflexivity|].
  cbn [Str.has_slash] in Hb. apply orb_false_elim in Hb as [Hc _].
  cbn [String.prefix].
  destruct (ascii_dec "/" c) as [<-|_]; [discriminate Hc | reflexivity].
Qed.

Lemma http_not_file (p : string) :
  Str.startswith p "http://" = true -> Str.startswith p "file://" = false.
Proof.
  unfold Str.startswith. destruct p as [|c r]; [discriminate|].
  intros Hp. cbn [String.prefix] in *.
  destruct (ascii_dec "h" c) as [<-|_]; [reflexivity | discriminate Hp].
Qed.

Lemma remove_from_free (old s : string) :
  Str.occurs old s = false -> Str.remove_from old 0 s = s.
Proof.
  induction s as [|c r IH]; [reflexivity|].
  intros Ho. cbn [Str.occurs] in Ho.
  apply orb_false_elim in Ho as [Hp Hr].
  cbn [Str.remove_from]. rewrite Hp. now rewrite (IH Hr).
Qed.

Lemma remove_from_skip (old t s : string) :
  Str.remove_from old (String.length t) (t +:+ s) = Str.remove_from old 0 s.
Proof.
  induction t as [|c t IH]; cbn.
  - now destruct s.
  - exact IH.
Qed.

Lemma remove_leading (old s : string) :
  old <> "" -> Str.remove (old +:+ s) old = Str.remove s old.
Proof.
  intros Hold. unfold Str.remove.
  destruct old as [|c o]; [congruence|]. cbn [String.eqb].
  change (String c o +:+ s) with (String c (o +:+ s)).
  cbn [Str.remove_from].
  pose proof (startswith_app (String c o) s) as Hp.
  unfold Str.startswith in Hp.
  change (String c o +:+ s) with (String c (o +:+ s)) in Hp.
  rewrite Hp. cbn [String.length Nat.pred]. apply remove_from_skip.
Qed.

Lemma normalize_has_scheme (p : string) :
  Str.startswith (TarballClient._normalize_tarball_url p) "file://"
  || Str.startswith (TarballClient._normalize_tarball_url p) "http://" = true.
Proof.
  unfold TarballClient._normalize_tarball_url.
  destruct (Str.startswith p "file://" || Str.startswith p "http://") eqn:E.
  - exact E.
  - now rewrite (startswith_app "file://" p).
Qed.

(** What the constructor returns when [tar] is there. *)
Lemma init_value (p : string) (u pw : option string) (enc : string)
    (l : option string) (w w' : World) (c : TarballClient.t) :
  TarballClient.__init__ p u pw enc l w = (w', Ok c) ->
  w' = w /\
  TarballClient.path c = TarballClient._normalize_tarball_url p /\
  TarballClient.username c = u /\
  TarballClient.password c = pw /\
  TarballClient.tarball_local_path c =
    (if Str.startswith (TarballClient._normalize_tarball_url p) "file://"
     then Str.remove (TarballClient._normalize_tarball_url p) "file://"
     else Str.join TarballClient.TARBALL_LOCAL_CACHE_DIR
            (Str.basename (TarballClient._normalize_tarball_url p))).
Proof.
  unfold TarballClient.__init__, bind, is_exe_in_path.
  destruct (exe_in_path w "tar"); cbn; [|discriminate].
  intros Hc. injection Hc as <- <-. now cbn.
Qed.

Lemma init_without_tar (p : string) (u pw : option string) (enc : string)
    (l : option string) (w : World) :
  (exe_in_path w "tar" = false ->
   TarballClient.__init__ p u pw enc l w = (w, Raise ImportError)) /\
  (exe_in_path w "tar" = true ->
   exists c, TarballClient.__init__ p u pw enc l w = (w, Ok c)).
Proof.
  unfold TarballClient.__init__, bind, is_exe_in_path.
  split; intros ->; cbn; [reflexivity | eauto].
Qed.

(** X1: the constructor of the client raises ImportError, and changes
    nothing, when [tar] is not in PATH; when it is, the constructor returns a
    client, changes nothing, and the path of the client starts with
    [file://] or with [http://]. *)
Theorem client_init_needs_tar (p : string) (u pw : option string)
    (enc : string) (l : option string) (w : World) :
  (exe_in_path w "tar" = false ->
   TarballClient.__init__ p u pw enc l w = (w, Raise ImportError)) /\
  (exe_in_path w "tar" = true ->
   exists c, TarballClient.__init__ p u pw enc l w = (w, Ok c) /\
             Str.startswith (TarballClient.path c) "file://"
             || Str.startswith (TarballClient.path c) "http://" = true).
Proof.
  unfold TarballClient.__init__, bind, is_exe_in_path.
  split; intros ->; cbn; [reflexivity|].
  eexists. split; [reflexivity|]. cbn. apply normalize_has_scheme.
Qed.

Lemma client_init_needs_tar_witness :
  (exists c, TarballClient.__init__ "/srv/a.tar" None None "" None Sample.world
             = (Sample.world, Ok c)) /\
  TarballClient.__init__ "/srv/a.tar" None None "" None
    Sample.without_tar
  = (Sample.without_tar, Raise ImportError).
Proof.
  split.
  - destruct (proj2 (client_init_needs_tar "/srv/a.tar" None None "" None
                       Sample.world) eq_refl) as (c & Hc & _).
    exists c. exact Hc.
  - apply (proj1 (client_init_needs_tar "/srv/a.tar" None None "" None _)).
    reflexivity.
Defined.

Lemma init_http (p : string) (u pw : option string) (enc : string)
    (l : option string) (w w' : World) (c : TarballClient.t) :
  Str.startswith p "http://" = true ->
  TarballClient.__init__ p u pw enc l w = (w', Ok c) ->
  TarballClient.path c = p /\
  TarballClient.tarball_local_path c = "/tmp/" +:+ Str.basename p.
Proof.
  intros Hp Hc.
  apply init_value in Hc as (_ & Hpath & _ & _ & Hlocal).
  assert (TarballClient._normalize_tarball_url p = p) as Hn.
  { unfold TarballClient._normalize_tarball_url. rewrite Hp.
    now rewrite orb_true_r. }
  rewrite Hn in *. rewrite (http_not_file p Hp) in Hlocal.
  split; [exact Hpath|].
  rewrite Hlocal. apply join_tmp, basename_no_slash.
Qed.

(** X2: the client of a source that starts with [http://] has its cache file
    directly in [/tmp], under the base name of the URL: the local path is
    [/tmp/] followed by what follows the last slash of the URL, which has no
    slash in it. *)
Theorem remote_cache_path (p : string) (u pw : option string) (enc : string)
    (l : option string) (w w' : World) (c : TarballClient.t) :
  Str.startswith p "http://" = true ->
  TarballClient.__init__ p u pw enc l w = (w', Ok c) ->
  TarballClient.path c = p /\
  TarballClient.tarball_local_path c = "/tmp/" +:+ Str.basename p /\
  Str.has_slash (Str.basename p) = false.
Proof.
  intros Hp Hc. destruct (init_http _ _ _ _ _ _ _ _ Hp Hc) as [Hpath Hlocal].
  split; [exact Hpath | split; [exact Hlocal | apply basename_no_slash]].
Qed.

Lemma remote_cache_path_witness :
  TarballClient.path (Sample.client "http://h/pub/x.tar" "/tmp/x.tar")
  = "http://h/pub/x.tar" /\
  TarballClient.tarball_local_path
    (Sample.client "http://h/pub/x.tar" "/tmp/x.tar")
  = "/tmp/" +:+ Str.basename "http://h/pub/x.tar" /\
  Str.has_slash (Str.basename "http://h/pub/x.tar") = false.
Proof.
  apply (remote_cache_path "http://h/pub/x.tar" None None "" None
           Sample.world Sample.world
           (Sample.client "http://h/pub/x.tar" "/tmp/x.tar")
           eq_refl eq_refl).
Defined.


(** X3: two sources that start with [http://] and have the same base name
    share one cache file, whatever their hosts and directories. *)
Theorem remote_cache_path_collision (p1 p2 : string)
    (u1 pw1 u2 pw2 : option string) (enc1 enc2 : string)
    (l1 l2 : option string) (w1 w1' w2 w2' : World) (c1 c2 : TarballClient.t) :
  Str.startswith p1 "http://" = true ->
  Str.startswith p2 "http://" = true ->
  Str.basename p1 = Str.basename p2 ->
  TarballClient.__init__ p1 u1 pw1 enc1 l1 w1 = (w1', Ok c1) ->
  TarballClient.__init__ p2 u2 pw2 enc2 l2 w2 = (w2', Ok c2) ->
  TarballClient.tarball_local_path c1 = TarballClient.tarball_local_path c2.
Proof.
  intros H1 H2 Hb Hc1 Hc2.
  destruct (init_http _ _ _ _ _ _ _ _ H1 Hc1) as [_ ->].
  destruct (init_http _ _ _ _ _ _ _ _ H2 Hc2) as [_ ->].
  now rewrite Hb.
Qed.

Lemma remote_cache_path_collision_witness :
  TarballClient.tarball_local_path
    (Sample.client "http://h/pub/x.tar" "/tmp/x.tar")
  = TarballClient.tarball_local_path
      (Sample.client "http://elsewhere/x.tar" "/tmp/x.tar").
Proof.
  apply (remote_cache_path_collision
           "http://h/pub/x.tar" "http://elsewhere/x.tar"
           None None None None "" "" None None
           Sample.world Sample.world Sample.world Sample.world
           _ _ eq_refl eq_refl eq_refl eq_refl eq_refl).
Defined.

(** X4: a source that is not an [http://] URL is read in place: when the
    normalized path is [file://] followed by [q], and [file://] does not
    occur in [q], the local path of the client is [q].  This is so for a
    bare path, for a [file://] URL, and for any other URL, such as an
    [https://] one, which is taken for the name of a local file. *)
Theorem local_source_path (p q : string) (u pw : option string)
    (enc : string) (l : option string) (w w' : World) (c : TarballClient.t) :
  TarballClient._normalize_tarball_url p = "file://" +:+ q ->
  Str.occurs "file://" q = false ->
  TarballClient.__init__ p u pw enc l w = (w', Ok c) ->
  TarballClient.path c = "file://" +:+ q /\
  TarballClient.tarball_local_path c = q.
Proof.
  intros Hn Hq Hc.
  apply init_value in Hc as (_ & Hpath & _ & _ & Hlocal).
  rewrite Hn in *. split; [exact Hpath|].
  rewrite (startswith_app "file://" q) in Hlocal. rewrite Hlocal.
  rewrite remove_leading by discriminate.
  unfold Str.remove. cbn [String.eqb Ascii.eqb]. now apply remove_from_free.
Qed.

Lemma local_source_path_witness :
  TarballClient.tarball_local_path Sample.local_client = "/srv/a.tar" /\
  TarballClient.tarball_local_path
    (Sample.client "file://https://h/a.tar" "https://h/a.tar")
  = "https://h/a.tar".
Proof.
  split.
  - apply (local_source_path "file:///srv/a.tar" "/srv/a.tar" None None ""
             None Sample.world Sample.world Sample.local_client
             eq_refl eq_refl eq_refl).
  - apply (local_source_path "https://h/a.tar" "https://h/a.tar" None None ""
             None Sample.world Sample.world
             (Sample.client "file://https://h/a.tar" "https://h/a.tar")
             eq_refl eq_refl eq_refl).
Defined.

(** *** Filling the cache *)

Section CacheFillMore.
Context `{Externals}.
Variable self : TarballClient.t.

Local Abbreviation local := (TarballClient.tarball_local_path self).
Local Abbreviation url := (TarballClient.path self).

(** X5: a file that is at the cache path is never fetched again: whatever
    its content and whatever the server would answer,
    [_cache_remote_tarball] returns, sends no request and leaves every file
    as it is. *)
Theorem cache_fill_keeps_cached_file (w : World) (content : bytes) :
  fs w !! local = Some content ->
  exists w', TarballClient._cache_remote_tarball self w = (w', Ok tt) /\
             fs w' = fs w /\ requests w' = requests w.
Proof.
  intros E. rewrite (cache_fill_cached self w content E).
  eexists. repeat split.
Qed.

(** X6: with no file at the cache path and no user name, a request that the
    server answers with a body makes [_cache_remote_tarball] return with
    that body as the content of the cache file; one request, for the URL of
    the client and without headers, has been sent, and nothing is logged. *)
Theorem cache_fill_stores_body (w : World) (data : bytes) :
  fs w !! local = None ->
  Str.truthy (TarballClient.username self) = false ->
  remote w (URLRequest url) = Body data ->
  exists w', TarballClient._cache_remote_tarball self w = (w', Ok tt) /\
             fs w' = <[local := data]> (fs w) /\
             requests w' = (requests w ++ [URLRequest url])%list /\
             log w' = log w.
Proof.
  intros E Hu Hr. rewrite (cache_fill_without_username self w E Hu), Hr.
  eexists. split; [reflexivity|]. cbn. split; [|split; reflexivity].
  apply insert_insert_eq.
Qed.

(** X7: with no file at the cache path and a user name that is not empty,
    [_cache_remote_tarball] raises SCMError whatever the server would
    answer: building the header needs [base64], which the module does not
    import.  No request is sent and no cache file is created. *)
Theorem cache_fill_with_credentials_fails (w : World) :
  fs w !! local = None ->
  Str.truthy (TarballClient.username self) = true ->
  exists w' msg,
    TarballClient._cache_remote_tarball self w = (w', Raise (SCMError msg)) /\
    fs w' = fs w /\ requests w' = requests w /\
    log w' = (log w ++ [(ERROR, msg)])%list.
Proof.
  intros E Hu. rewrite (cache_fill_with_username self w E Hu).
  eexists _, _. repeat split.
Qed.

(** X8: whatever the client, its credentials and the state,
    [_cache_remote_tarball] sends at most one request, for the URL of the
    client, and that request has no header. *)
Theorem cache_fill_sends_no_header (w : World) :
  requests (TarballClient._cache_remote_tarball self w).1 = requests w \/
  requests (TarballClient._cache_remote_tarball self w).1
  = (requests w ++ [ {| req_url := url; req_headers := [] |} ])%list.
Proof.
  destruct (fs w !! local) as [content|] eqn:E.
  - left. now rewrite (cache_fill_cached self w content E).
  - destruct (Str.truthy (TarballClient.username self)) eqn:Hu.
    + left. now rewrite (cache_fill_with_username self w E Hu).
    + right. rewrite (cache_fill_without_username self w E Hu).
      destruct (remote w _) as [data | code msg | reason];
        [reflexivity | now destruct (code =? 404) | reflexivity].
Qed.

End CacheFillMore.

Lemma cache_fill_keeps_cached_file_witness :
  exists w',
    TarballClient._cache_remote_tarball (H := Sample.externals)
      (Sample.client "http://h/bad.tar" "/tmp/bad.tar") Sample.world
    = (w', Ok tt) /\ requests w' = [].
Proof.
  destruct (cache_fill_keeps_cached_file (H := Sample.externals)
              (Sample.client "http://h/bad.tar" "/tmp/bad.tar") Sample.world
              (list_byte_of_string "junk") eq_refl) as (w' & Hrun & _ & Hreq).
  exists w'. split; [exact Hrun | exact Hreq].
Defined.

Lemma cache_fill_with_credentials_fails_witness :
  exists w' msg,
    TarballClient._cache_remote_tarball (H := Sample.externals)
      (Sample.client_of (Some "alice") (Some "secret") "http://h/x.tar"
         "/tmp/x.tar") Sample.world
    = (w', Raise (SCMError msg)) /\ requests w' = [].
Proof.
  destruct (cache_fill_with_credentials_fails (H := Sample.externals)
              (Sample.client_of (Some "alice") (Some "secret") "http://h/x.tar"
         "/tmp/x.tar")
              Sample.world eq_refl eq_refl)
    as (w' & msg & Hrun & _ & Hreq & _).
  exists w', msg. split; [exact Hrun | exact Hreq].
Defined.

Lemma cache_fill_stores_body_witness :
  exists w',
    TarballClient._cache_remote_tarball (H := Sample.externals)
      (Sample.client "http://h/a.tar" "/tmp/a.tar") Sample.serving
    = (w', Ok tt) /\
    fs w' !! "/tmp/a.tar" = Some Sample.archive_content.
Proof.
  destruct (cache_fill_stores_body (H := Sample.externals)
              (Sample.client "http://h/a.tar" "/tmp/a.tar") Sample.serving
              Sample.archive_content eq_refl eq_refl eq_refl)
    as (w' & Hrun & Hfs & _).
  exists w'. split; [exact Hrun|]. rewrite Hfs. apply lookup_insert_eq.
Defined.

(** *** Validity *)

Section ValidityMore.
Context `{Externals}.
Variable self : TarballClient.t.

Local Abbreviation local := (TarballClient.tarball_local_path self).
Local Abbreviation url := (TarballClient.path self).

Lemma is_valid_tarfile_valid (w : World) (content : bytes) (tf : TarFile) :
  fs w !! local = Some content ->
  tarfile_parse content = Some tf ->
  TarballClient._is_valid_tarfile self w = (add_opened local w, Ok true).
Proof.
  intros E Hparse. unfold TarballClient._is_valid_tarfile.
  rewrite tarfile_attr_open. unfold tarfile_open.
  unfold bind at 1. unfold try_except. unfold bind at 1.
  now rewrite E, Hparse.
Qed.

(** X9: called where no file is at the local path, [_is_valid_tarfile] does
    not return false: the handler of the failed open logs, then fails to
    remove the file that is not there, and OSError goes on to the caller. *)
Theorem is_valid_tarfile_missing_raises (w : World) :
  fs w !! local = None ->
  TarballClient._is_valid_tarfile self w
  = (add_log DEBUG ("Tarball: Not a valid archive " +:+ local) w,
     Raise (OSError local)).
Proof.
  intros E. unfold TarballClient._is_valid_tarfile.
  rewrite tarfile_attr_open. unfold tarfile_open.
  unfold bind at 1. unfold try_except. unfold bind at 1.
  rewrite E. cbn [handler]. rewrite isinstance_BaseException.
  unfold bind, logging_debug, os_remove. cbn [fs add_log].
  now rewrite E.
Qed.

(** [is_valid_repository], case by case. *)
Lemma is_valid_repository_eq (w : World) :
  TarballClient.is_valid_repository self w
  = if Str.startswith url "http://" then
      match TarballClient._cache_remote_tarball self w with
      | (w0, Ok _) => local_verdict self w0
      | (w0, Raise e) =>
          (add_log ERROR ("Tarball: Cannot cache remote tarball " +:+ url
                            +:+ ": " +:+ str_of_exn e) w0,
           Ok false)
      end
    else local_verdict self w.
Proof.
  assert (forall w0 : World,
            bind (os_path_exists local)
              (fun found : bool =>
                 if negb found
                 then bind (logging_error
                              ("Tarball: Cannot find local archive " +:+ local))
                        (fun _ => ret false)
                 else TarballClient._is_valid_tarfile self) w0
            = local_verdict self w0) as Hrest.
  { intros w0. unfold bind at 1. unfold local_verdict.
    destruct (fs w0 !! local) as [content|] eqn:E.
    - rewrite (os_path_exists_Some _ _ _ E). cbn [negb].
      destruct (tarfile_parse content) as [tf|] eqn:Hp.
      + apply (is_valid_tarfile_valid w0 content tf E Hp).
      + apply (is_valid_tarfile_corrupt self w0 content E Hp).
    - now rewrite (os_path_exists_None _ _ E). }
  unfold TarballClient.is_valid_repository.
  destruct (Str.startswith url "http://").
  - unfold bind at 1. rewrite try_except_Exception. unfold bind at 1.
    destruct (TarballClient._cache_remote_tarball self w) as [w0 [[]|e]].
    + unfold ret at 1. apply Hrest.
    + reflexivity.
  - unfold bind at 1. unfold ret at 1. apply Hrest.
Qed.

Lemma local_verdict_returns (w : World) :
  exists w' b, local_verdict self w = (w', Ok b).
Proof.
  unfold local_verdict. destruct (fs w !! local) as [content|]; [|eauto].
  destruct (tarfile_parse content); eauto.
Qed.

Lemma local_verdict_true (w w' : World) :
  local_verdict self w = (w', Ok true) ->
  exists content tf, fs w' !! local = Some content /\
                     tarfile_parse content = Some tf.
Proof.
  unfold local_verdict. destruct (fs w !! local) as [content|] eqn:E;
    [|discriminate].
  destruct (tarfile_parse content) as [tf|] eqn:Hp; [|discriminate].
  intros Hv. injection Hv as <-. now exists content, tf.
Qed.

(** X10: [is_valid_repository] never raises (on a file system of regular
    files): whatever the client and the state, it returns a verdict. *)
Theorem is_valid_repository_returns (w : World) :
  exists w' b, TarballClient.is_valid_repository self w = (w', Ok b).
Proof.
  rewrite is_valid_repository_eq.
  destruct (Str.startswith url "http://"); [|apply local_verdict_returns].
  destruct (TarballClient._cache_remote_tarball self w) as [w0 [[]|e]];
    [apply local_verdict_returns | eauto].
Qed.

(** X11: where the file at the local path opens as an archive,
    [is_valid_repository] returns true, keeps every file as it is and sends
    no request, for a remote source as for a local one. *)
Theorem is_valid_repository_accepts_archive (w : World) (content : bytes)
    (tf : TarFile) :
  fs w !! local = Some content ->
  tarfile_parse content = Some tf ->
  exists w', TarballClient.is_valid_repository self w = (w', Ok true) /\
             fs w' = fs w /\ requests w' = requests w.
Proof.
  intros E Hp. rewrite is_valid_repository_eq.
  destruct (Str.startswith url "http://").
  - rewrite (cache_fill_cached self w content E).
    unfold local_verdict. cbn [fs add_log]. rewrite E, Hp.
    eexists. repeat split.
  - unfold local_verdict. rewrite E, Hp. eexists. repeat split.
Qed.

(** X12: a verdict of true is sound: when [is_valid_repository] returns
    true, a file that opens as an archive is at the local path in the state
    it leaves. *)
Theorem is_valid_repository_true_sound (w w' : World) :
  TarballClient.is_valid_repository self w = (w', Ok true) ->
  exists content tf, fs w' !! local = Some content /\
                     tarfile_parse content = Some tf.
Proof.
  rewrite is_valid_repository_eq.
  destruct (Str.startswith url "http://"); [|apply local_verdict_true].
  destruct (TarballClient._cache_remote_tarball self w) as [w0 [[]|e]];
    [apply local_verdict_true | discriminate].
Qed.

(** X13: for a source that is not an [http://] URL and has no file at its
    local path, [is_valid_repository] returns false and logs that the
    archive cannot be found; it changes nothing else. *)
Theorem is_valid_repository_missing_local (w : World) :
  Str.startswith url "http://" = false ->
  fs w !! local = None ->
  TarballClient.is_valid_repository self w
  = (add_log ERROR ("Tarball: Cannot find local archive " +:+ local) w,
     Ok false).
Proof.
  intros Hu E. rewrite is_valid_repository_eq, Hu.
  unfold local_verdict. now rewrite E.
Qed.

(** X14: a source that is not an [http://] URL is never fetched:
    [is_valid_repository] sends no request. *)
Theorem is_valid_repository_local_offline (w : World) :
  Str.startswith url "http://" = false ->
  requests (TarballClient.is_valid_repository self w).1 = requests w.
Proof.
  intros Hu. rewrite is_valid_repository_eq, Hu. unfold local_verdict.
  destruct (fs w !! local) as [content|]; [|reflexivity].
  now destruct (tarfile_parse content).
Qed.

(** X15: a fetch that fails is retried only every other time.  For an
    [http://] source with no cache file and no user name whose request
    fails, [is_valid_repository] returns false and leaves the cache file
    empty; called again, where an empty file is no archive, it returns
    false without sending a request and removes the file, so that the
    files are as they were at first. *)
Theorem is_valid_repository_retry_cycle (w : World) :
  Str.startswith url "http://" = true ->
  fs w !! local = None ->
  Str.truthy (TarballClient.username self) = false ->
  is_failure (remote w (URLRequest url)) = true ->
  tarfile_parse [] = None ->
  exists w1 w2,
    TarballClient.is_valid_repository self w = (w1, Ok false) /\
    fs w1 = <[local := []]> (fs w) /\
    requests w1 = (requests w ++ [URLRequest url])%list /\
    TarballClient.is_valid_repository self w1 = (w2, Ok false) /\
    requests w2 = requests w1 /\
    fs w2 = fs w.
Proof.
  intros Hhttp E Hu Hfail Hempty.
  assert (exists w1, TarballClient.is_valid_repository self w = (w1, Ok false)
                     /\ fs w1 = <[local := []]> (fs w)
                     /\ requests w1 = (requests w ++ [URLRequest url])%list)
    as (w1 & Hrun1 & Hfs1 & Hreq1).
  { rewrite is_valid_repository_eq, Hhttp.
    rewrite (cache_fill_without_username self w E Hu).
    destruct (remote w (URLRequest url)) as [data | code msg | reason];
      [discriminate Hfail | destruct (code =? 404) | ];
      (eexists; split; [reflexivity | split; reflexivity]). }
  assert (fs w1 !! local = Some ([] : bytes)) as E1
    by (rewrite Hfs1; apply lookup_insert_eq).
  exists w1. eexists. split; [exact Hrun1|]. split; [exact Hfs1|].
  split; [exact Hreq1|].
  rewrite is_valid_repository_eq, Hhttp.
  rewrite (cache_fill_cached self w1 [] E1).
  unfold local_verdict. cbn [fs add_log]. rewrite E1, Hempty.
  split; [reflexivity|]. split; [reflexivity|].
  cbn. rewrite Hfs1. rewrite delete_insert_eq. now apply delete_id.
Qed.

(** X16: for an [http://] source with no cache file and no user name whose
    request is answered with a body, [is_valid_repository] returns true and
    keeps the body as the cache file when the body opens as an archive; when
    it does not, it returns false and removes the file it has just written. *)
Theorem is_valid_repository_fetches (w : World) (data : bytes) :
  Str.startswith url "http://" = true ->
  fs w !! local = None ->
  Str.truthy (TarballClient.username self) = false ->
  remote w (URLRequest url) = Body data ->
  exists w',
    TarballClient.is_valid_repository self w
    = (w', Ok (bool_decide (is_Some (tarfile_parse data)))) /\
    fs w' = match tarfile_parse data with
            | Some _ => <[local := data]> (fs w)
            | None => fs w
            end /\
    requests w' = (requests w ++ [URLRequest url])%list.
Proof.
  intros Hhttp E Hu Hr.
  rewrite is_valid_repository_eq, Hhttp.
  rewrite (cache_fill_without_username self w E Hu), Hr.
  unfold local_verdict. cbn [fs set_fs fetching add_request].
  rewrite lookup_insert_eq.
  destruct (tarfile_parse data) as [tf|].
  - eexists. split; [reflexivity|]. cbn. split; [|reflexivity].
    apply insert_insert_eq.
  - eexists. split; [reflexivity|]. cbn. split; [|reflexivity].
    rewrite delete_insert_eq, delete_insert_eq. now apply delete_id.
Qed.

End ValidityMore.

Lemma is_valid_tarfile_missing_raises_witness :
  (TarballClient._is_valid_tarfile (H := Sample.externals)
     (Sample.client "file:///srv/none.tar" "/srv/none.tar") Sample.world).2
  = Raise (OSError "/srv/none.tar").
Proof.
  rewrite (is_valid_tarfile_missing_raises (H := Sample.externals)
             (Sample.client "file:///srv/none.tar" "/srv/none.tar")
             Sample.world eq_refl).
  reflexivity.
Defined.

Lemma is_valid_repository_accepts_archive_witness :
  exists w',
    TarballClient.is_valid_repository (H := Sample.externals)
      Sample.local_client Sample.world = (w', Ok true) /\
    fs w' = fs Sample.world.
Proof.
  destruct (is_valid_repository_accepts_archive (H := Sample.externals)
              Sample.local_client Sample.world Sample.archive_content
              Sample.members eq_refl eq_refl) as (w' & Hrun & Hfs & _).
  exists w'. split; [exact Hrun | exact Hfs].
Defined.

Lemma is_valid_repository_true_sound_witness :
  exists content tf,
    fs (add_opened "/srv/a.tar" Sample.world) !! "/srv/a.tar" = Some content /\
    Sample.parse content = Some tf.
Proof.
  apply (is_valid_repository_true_sound (H := Sample.externals)
           Sample.local_client Sample.world
           (add_opened "/srv/a.tar" Sample.world) eq_refl).
Defined.

Lemma is_valid_repository_missing_local_witness :
  (TarballClient.is_valid_repository (H := Sample.externals)
     (Sample.client "file:///srv/none.tar" "/srv/none.tar") Sample.world).2
  = Ok false.
Proof.
  rewrite (is_valid_repository_missing_local (H := Sample.externals)
             (Sample.client "file:///srv/none.tar" "/srv/none.tar")
             Sample.world eq_refl eq_refl).
  reflexivity.
Defined.

Lemma is_valid_repository_local_offline_witness :
  requests (TarballClient.is_valid_repository (H := Sample.externals)
              Sample.local_client Sample.world).1 = [].
Proof.
  apply (is_valid_repository_local_offline (H := Sample.externals)
           Sample.local_client Sample.world eq_refl).
Defined.

Lemma is_valid_repository_retry_cycle_witness :
  exists w1 w2,
    TarballClient.is_valid_repository (H := Sample.externals)
      (Sample.client "http://h/x.tar" "/tmp/x.tar") Sample.world
    = (w1, Ok false) /\
    TarballClient.is_valid_repository (H := Sample.externals)
      (Sample.client "http://h/x.tar" "/tmp/x.tar") w1
    = (w2, Ok false) /\
    fs w2 = fs Sample.world.
Proof.
  destruct (is_valid_repository_retry_cycle (H := Sample.externals)
              (Sample.client "http://h/x.tar" "/tmp/x.tar") Sample.world
              eq_refl eq_refl eq_refl eq_refl eq_refl)
    as (w1 & w2 & Hrun1 & _ & _ & Hrun2 & _ & Hfs).
  exists w1, w2. split; [exact Hrun1 | split; [exact Hrun2 | exact Hfs]].
Defined.

Lemma is_valid_repository_fetches_witness :
  (exists w',
     TarballClient.is_valid_repository (H := Sample.externals)
       (Sample.client "http://h/a.tar" "/tmp/a.tar") Sample.serving
     = (w', Ok true) /\
     fs w' = <["/tmp/a.tar" := Sample.archive_content]> (fs Sample.serving)) /\
  (exists w',
     TarballClient.is_valid_repository (H := Sample.externals)
       (Sample.client "http://h/junk.tar" "/tmp/junk.tar") Sample.serving
     = (w', Ok false) /\
     fs w' = fs Sample.serving).
Proof.
  split.
  - destruct (is_valid_repository_fetches (H := Sample.externals)
                (Sample.client "http://h/a.tar" "/tmp/a.tar") Sample.serving
                Sample.archive_content eq_refl eq_refl eq_refl eq_refl)
      as (w' & Hrun & Hfs & _).
    exists w'. split; [exact Hrun | exact Hfs].
  - destruct (is_valid_repository_fetches (H := Sample.externals)
                (Sample.client "http://h/junk.tar" "/tmp/junk.tar")
                Sample.serving (list_byte_of_string "junk")
                eq_refl eq_refl eq_refl eq_refl)
      as (w' & Hrun & Hfs & _).
    exists w'. split; [exact Hrun | exact Hfs].
Defined.

(** *** Reading members and the adapter *)

Section Reading.
Context `{Externals}.

Lemma get_file_raises (self : TarballClient.t) (path : string)
    (revision : Revision) (w : World) :
  exists w' e, TarballClient.get_file self path revision w = (w', Raise e).
Proof.
  rewrite get_file_no_opener. eauto.
Qed.

Lemma get_file_exists_false (self : TarballClient.t) (path : string)
    (revision : Revision) (w : World) :
  exists w', TarballClient.get_file_exists self path revision w = (w', Ok false).
Proof.
  unfold TarballClient.get_file_exists.
  rewrite try_except_Exception. unfold bind.
  destruct (get_file_raises self path revision w) as (w' & e & ->). eauto.
Qed.

Lemma Revision_eqb_PRE_CREATION (revision : Revision) :
  revision <> PRE_CREATION -> Revision_eqb revision PRE_CREATION = false.
Proof. destruct revision; [congruence | reflexivity]. Qed.


(** X18: [get_file_exists] of the client returns false for every path,
    every revision and every state, and never raises. *)
Theorem client_get_file_exists_always_false (self : TarballClient.t)
    (path : string) (revision : Revision) (w : World) :
  (TarballClient.get_file_exists self path revision w).2 = Ok false.
Proof.
  destruct (get_file_exists_false self path revision w) as (w' & ->).
  reflexivity.
Qed.

(** X19: [file_exists] of the tool returns false for every path, every
    revision and every state, and never raises. *)
Theorem tool_file_exists_always_false (self : TarballTool.t) (path : string)
    (revision : Revision) (w : World) :
  (TarballTool.file_exists self path revision w).2 = Ok false.
Proof.
  unfold TarballTool.file_exists.
  destruct (Revision_eqb revision PRE_CREATION); [reflexivity|].
  unfold try_except.
  destruct (get_file_exists_false (TarballTool.client self) path revision w)
    as (w' & ->).
  reflexivity.
Qed.

(** X20: [get_file] of the tool returns a content for the pre-creation
    sentinel only, and then the empty one; for every other revision it
    raises. *)
Theorem tool_get_file_returns_only_pre_creation (self : TarballTool.t)
    (path : string) (revision : Revision) (w : World) :
  (revision = PRE_CREATION ->
   TarballTool.get_file self path revision w = (w, Ok [])) /\
  (revision <> PRE_CREATION ->
   exists w' e, TarballTool.get_file self path revision w = (w', Raise e)).
Proof.
  unfold TarballTool.get_file. split.
  - now intros ->.
  - intros Hr. rewrite (Revision_eqb_PRE_CREATION revision Hr).
    apply get_file_raises.
Qed.

(** X21: for a revision that is not the sentinel, [file_exists] of the tool
    is [get_file_exists] of its client, in result and in state: the two
    [except] clauses of the tool never run, since the client's probe never
    raises. *)
Theorem tool_file_exists_delegates (self : TarballTool.t) (path : string)
    (revision : Revision) (w : World) :
  revision <> PRE_CREATION ->
  TarballTool.file_exists self path revision w
  = TarballClient.get_file_exists (TarballTool.client self) path revision w.
Proof.
  intros Hr. unfold TarballTool.file_exists.
  rewrite (Revision_eqb_PRE_CREATION revision Hr).
  unfold try_except, TarballClient.get_file_exists.
  rewrite try_except_Exception. unfold bind.
  now destruct (TarballClient.get_file _ path revision w) as [w' [a|e]].
Qed.

(** X22: a diff side named [/dev/null] reads as an absent, empty file: with
    the file name and the revision that [parse_diff_revision] returns for
    it, [get_file] returns the empty content and [file_exists] false, and
    the state is untouched. *)
Theorem dev_null_reads_empty (self : TarballTool.t) (revision_str : string)
    (moved copied : bool) (w : World) :
  let parsed := TarballTool.parse_diff_revision self "/dev/null" revision_str
                  moved copied in
  TarballTool.get_file self parsed.1 parsed.2 w = (w, Ok []) /\
  TarballTool.file_exists self parsed.1 parsed.2 w = (w, Ok false).
Proof. split; reflexivity. Qed.

(** X23: when [check_repository] returns without an exception, the client
    that its constructor call builds for the path it was given has, in the
    state reached, a file at its local path that opens as an archive. *)
Theorem check_repository_returns_sound (path : string)
    (username password local_site_name : option string) (w w' w0 : World)
    (c : TarballClient.t) :
  TarballTool.check_repository path username password local_site_name w
  = (w', Ok tt) ->
  TarballClient.__init__ path None None "" local_site_name w = (w0, Ok c) ->
  exists content tf,
    fs w' !! TarballClient.tarball_local_path c = Some content /\
    tarfile_parse content = Some tf.
Proof.
  intros Hrun Hinit. revert Hrun.
  unfold TarballTool.check_repository. unfold bind at 1. rewrite Hinit.
  unfold bind at 1.
  destruct (SCMTool_check_repository _ _ _ _ w0) as [w1 [[]|e]];
    [|discriminate].
  unfold bind at 1. rewrite is_valid_repository_eq.
  assert (forall wa wb r, local_verdict c wa = (wb, Ok r) ->
            (if negb r then raise RepositoryNotFoundError else ret tt) wb
            = (w', Ok tt) ->
            exists content tf,
              fs w' !! TarballClient.tarball_local_path c = Some content /\
              tarfile_parse content = Some tf) as Hv.
  { intros wa wb [] Hl Hr; [|discriminate Hr].
    injection Hr as <-. apply (local_verdict_true c wa wb Hl). }
  intros Hrun.
  destruct (Str.startswith (TarballClient.path c) "http://").
  - destruct (TarballClient._cache_remote_tarball c w1) as [w2 [[]|e]].
    + destruct (local_verdict_returns c w2) as (w3 & b & Hl).
      rewrite Hl in Hrun. apply (Hv w2 w3 b Hl Hrun).
    + discriminate Hrun.
  - destruct (local_verdict_returns c w1) as (w3 & b & Hl).
    rewrite Hl in Hrun. apply (Hv w1 w3 b Hl Hrun).
Qed.

End Reading.

(** X24: the client of a tool carries the credentials and the local site
    of its repository, and has the path and the local path of the client
    that [check_repository] builds, without credentials, for the path of
    that repository. *)
Theorem tool_init_client (repository : Repository) (l : option string)
    (w w1 w0 w0' : World) (tool : TarballTool.t) (c : TarballClient.t) :
  TarballTool.__init__ repository w = (w1, Ok tool) ->
  TarballClient.__init__ (repo_path repository) None None "" l w0
  = (w0', Ok c) ->
  TarballClient.path (TarballTool.client tool) = TarballClient.path c /\
  TarballClient.tarball_local_path (TarballTool.client tool)
  = TarballClient.tarball_local_path c /\
  TarballClient.username (TarballTool.client tool)
  = cred_username (repo_credentials repository) /\
  TarballClient.password (TarballTool.client tool)
  = cred_password (repo_credentials repository).
Proof.
  intros Htool Hc. unfold TarballTool.__init__, get_credentials in Htool.
  unfold bind at 1 in Htool.
  destruct (TarballClient.__init__ (repo_path repository) _ _ _ _ w)
    as [w2 [c2|e]] eqn:Hc2; [|discriminate Htool].
  injection Htool as _ <-. cbn [TarballTool.client].
  apply init_value in Hc2 as (_ & Hp2 & Hu2 & Hpw2 & Hl2).
  apply init_value in Hc as (_ & Hp & _ & _ & Hl).
  rewrite Hp2, Hp, Hl2, Hl, Hu2, Hpw2. now repeat split.
Qed.

(** X25: on a machine without [tar], [check_repository] raises ImportError
    before the method of the base class runs, and changes nothing. *)
Theorem check_repository_needs_tar `{Externals} (path : string)
    (username password local_site_name : option string) (w : World) :
  exe_in_path w "tar" = false ->
  TarballTool.check_repository path username password local_site_name w
  = (w, Raise ImportError).
Proof.
  intros Htar. unfold TarballTool.check_repository. unfold bind at 1.
  now rewrite (proj1 (init_without_tar path None None "" local_site_name w) Htar).
Qed.


Lemma tool_get_file_returns_only_pre_creation_witness :
  TarballTool.get_file {| TarballTool.client := Sample.local_client |}
      "dir/file.txt"
    PRE_CREATION Sample.world = (Sample.world, Ok []) /\
  exists w' e,
    TarballTool.get_file {| TarballTool.client := Sample.local_client |}
      "dir/file.txt"
      (RevStr "1") Sample.world = (w', Raise e).
Proof.
  split.
  - apply (proj1 (tool_get_file_returns_only_pre_creation
                    {| TarballTool.client := Sample.local_client |}
                    "dir/file.txt" PRE_CREATION Sample.world)).
    reflexivity.
  - apply (proj2 (tool_get_file_returns_only_pre_creation
                    {| TarballTool.client := Sample.local_client |}
                    "dir/file.txt" (RevStr "1") Sample.world)).
    intros E; discriminate E.
Defined.

Lemma tool_file_exists_delegates_witness :
  TarballTool.file_exists {| TarballTool.client := Sample.local_client |}
    "dir/file.txt"
    (RevStr "1") Sample.world
  = TarballClient.get_file_exists Sample.local_client "dir/file.txt"
      (RevStr "1") Sample.world.
Proof.
  apply (tool_file_exists_delegates
           {| TarballTool.client := Sample.local_client |} "dir/file.txt"
           (RevStr "1") Sample.world).
  intros E; discriminate E.
Defined.

Lemma check_repository_returns_sound_witness :
  exists content tf,
    fs (add_opened "/srv/a.tar" Sample.world) !! "/srv/a.tar" = Some content /\
    Sample.parse content = Some tf.
Proof.
  apply (check_repository_returns_sound (H := Sample.externals)
           "/srv/a.tar" (Some "alice") (Some "secret") None Sample.world
           (add_opened "/srv/a.tar" Sample.world) Sample.world
           Sample.local_client eq_refl eq_refl).
Defined.

Lemma tool_init_client_witness :
  let repository :=
    {| repo_path := "http://h/pub/x.tar";
       repo_local_site := Some {| site_name := "site" |};
       repo_credentials := {| cred_username := Some "alice";
                              cred_password := Some "secret" |};
       repo_encoding := "utf-8" |} in
  let tool :=
    {| TarballTool.client :=
         {| TarballClient.path := "http://h/pub/x.tar";
            TarballClient.username := Some "alice";
            TarballClient.password := Some "secret";
            TarballClient.encoding := "utf-8";
            TarballClient.local_site_name := Some "site";
            TarballClient.tarball_local_path := "/tmp/x.tar" |} |} in
  TarballTool.__init__ repository Sample.world = (Sample.world, Ok tool) /\
  TarballClient.tarball_local_path (TarballTool.client tool) = "/tmp/x.tar" /\
  TarballClient.username (TarballTool.client tool) = Some "alice".
Proof.
  intros repository tool.
  destruct (tool_init_client repository None Sample.world Sample.world
              Sample.world Sample.world tool
              (Sample.client "http://h/pub/x.tar" "/tmp/x.tar")
              eq_refl eq_refl) as (_ & Hl & Hu & _).
  split; [reflexivity | split; [exact Hl | exact Hu]].
Defined.

Lemma check_repository_needs_tar_witness :
  TarballTool.check_repository (H := Sample.externals) "/srv/a.tar"
    None None None Sample.without_tar
  = (Sample.without_tar, Raise ImportError).
Proof.
  apply (check_repository_needs_tar (H := Sample.externals) "/srv/a.tar"
           None None None Sample.without_tar eq_refl).
Defined.
